(** * authopie: the pydantic schemas of [backend/src/schemas.py]

    A shallow embedding of the schema classes of the authopie backend
    (roles, users, refresh tokens, key pairs, access-token claims, JWK)
    together with the part of pydantic (v1) model construction that the
    classes rely on: defaults, default factories, [Optional] fields,
    field validators ([pre], [always]), root validators and the [extra]
    policy.  Objects are their [__dict__], a finite map from attribute
    names to Python values.  How pydantic converts a value to an
    annotated type is pydantic's own code: the conversions are
    parameters of the schemas, known only by what they guarantee. *)

From Stdlib Require Import ZArith Ascii DecimalString.
From stdpp Require Import base gmap strings list sorting.

Open Scope string_scope.
Set Warnings "-register-all".

(** ** Python values and the built-ins the schemas call *)

Module Py.

(** The Python values that occur in the schemas. *)
Inductive pyval : Type :=
| PyNone
| PyBool (b : bool)
| PyInt (z : Z)
| PyStr (s : string)
| PyUUID (u : N)                      (* uuid.UUID, as its 128-bit integer *)
| PyDatetime (us : Z)                 (* datetime, microseconds since the epoch *)
| PyList (l : list pyval)
| PyModel (cls : string) (attrs : list (string * pyval)).

(** Exceptions.  The last three are the errors pydantic itself reports
    for a missing field, a [None] where none is allowed and a value of
    the wrong type. *)
Inductive exn : Type :=
| ValueError (msg : string)
| TypeError (msg : string)
| AssertionError (msg : string)
| AttributeError (msg : string)
| KeyError (key : string)
| MissingError
| NoneIsNotAllowedError
| WrongTypeError (expected : string).

Inductive res (A : Type) : Type :=
| Ok (a : A)
| Raise (e : exn).
Arguments Ok {A} a.
Arguments Raise {A} e.

Definition bind {A B} (r : res A) (k : A → res B) : res B :=
  match r with
  | Ok a => k a
  | Raise e => Raise e
  end.

(** [s.split(sep)] for a one-character separator: every occurrence of
    the separator ends a piece, so the result is never empty and
    [''.split(' ')] is [['']]. *)
Fixpoint str_split (sep : Ascii.ascii) (s : string) : list string :=
  match s with
  | EmptyString => [EmptyString]
  | String c s' =>
      if Ascii.eqb c sep then EmptyString :: str_split sep s'
      else match str_split sep s' with
           | [] => [String c EmptyString]
           | piece :: rest => String c piece :: rest
           end
  end.

Arguments str_split sep%_char_scope s%_string_scope.

(** [sep.join(l)]. *)
Fixpoint str_join (sep : string) (l : list string) : string :=
  match l with
  | [] => ""
  | x :: rest =>
      match rest with
      | [] => x
      | _ :: _ => x +:+ sep +:+ str_join sep rest
      end
  end.

(** [c in s] for a character [c]. *)
Fixpoint str_contains (c : Ascii.ascii) (s : string) : bool :=
  match s with
  | EmptyString => false
  | String a s' => Ascii.eqb a c || str_contains c s'
  end.

(** [list(set(l))]: the distinct elements of [l].  Python leaves the
    order of a set unspecified; the first occurrences are kept here. *)
Definition list_of_set (l : list string) : list string := remove_dups l.

(** Python orders lists lexicographically. *)
Fixpoint list_leb (l1 l2 : list string) : bool :=
  match l1, l2 with
  | [], _ => true
  | _ :: _, [] => false
  | x :: l1', y :: l2' =>
      if decide (x = y) then list_leb l1' l2' else String.leb x y
  end.

(** [l.sort()] sorts the list object in place and returns [None]: the
    first component is the value of the call expression, the second
    the new contents of the list. *)
Definition list_sort {A} (leb : A → A → bool) (l : list A) : pyval * list A :=
  (PyNone, merge_sort (λ x y, Is_true (leb x y)) l).

(** [a == b] on the values compared in the schemas. *)
Definition py_eq (a b : pyval) : bool :=
  match a, b with
  | PyNone, PyNone => true
  | PyBool x, PyBool y => bool_decide (x = y)
  | PyInt x, PyInt y => bool_decide (x = y)
  | PyStr x, PyStr y => bool_decide (x = y)
  | PyUUID x, PyUUID y => bool_decide (x = y)
  | PyDatetime x, PyDatetime y => bool_decide (x = y)
  | _, _ => false
  end.

(** [len(v)]: [None] has no length. *)
Definition py_len (v : pyval) : res Z :=
  match v with
  | PyList l => Ok (Z.of_nat (length l))
  | PyStr s => Ok (Z.of_nat (String.length s))
  | PyNone => Raise (TypeError "object of type 'NoneType' has no len()")
  | _ => Raise (TypeError "object has no len()")
  end.

(** [v is None]. *)
Definition is_none (v : pyval) : bool :=
  match v with
  | PyNone => true
  | _ => false
  end.

(** [all(l)]. *)
Definition py_all (l : list bool) : bool := forallb id l.

(** [d[k]]. *)
Definition getitem (d : gmap string pyval) (k : string) : res pyval :=
  match d !! k with
  | Some v => Ok v
  | None => Raise (KeyError k)
  end.

(** [sep.join(l)] on a list object: every item has to be a [str]. *)
Fixpoint str_items (l : list pyval) : res (list string) :=
  match l with
  | [] => Ok []
  | PyStr s :: l' => bind (str_items l') (λ r, Ok (s :: r))
  | _ :: _ => Raise (TypeError "sequence item: expected str instance")
  end.

End Py.
Import Py.

(** ** The world the schemas read: the clock and the UUID source *)

Module Runtime.

(** The clock counts microseconds since the epoch (UTC).
    [uuid_source] is the sequence of identifiers [uuid.uuid4] will
    return and [uuid_drawn] the number of them already handed out. *)
Record World : Type := {
  clock : Z;
  uuid_source : nat → N;
  uuid_drawn : nat
}.

(** [datetime.utcnow()]. *)
Definition utcnow (w : World) : pyval := PyDatetime (clock w).

(** [int(time())]: whole seconds, truncated towards zero. *)
Definition int_time (w : World) : pyval := PyInt (clock w `quot` 1000000).

(** [uuid.uuid4()]: hands out the next identifier of the source. *)
Definition uuid4 (w : World) : pyval * World :=
  (PyUUID (uuid_source w (uuid_drawn w)),
   {| clock := clock w;
      uuid_source := uuid_source w;
      uuid_drawn := S (uuid_drawn w) |}).

End Runtime.
Import Runtime.

(** ** Model construction, after pydantic v1 *)

Module Pydantic.

(** A validator of an annotated type.  Validating a value of a model
    type may construct an object, and so draw from the UUID source:
    it takes the world and returns the new one. *)
Definition TypeValidator : Type := World → pyval → res pyval * World.
Definition Validator : Type := World → pyval → res pyval.
Definition RootValidator : Type := gmap string pyval → res (gmap string pyval).

(** What a field falls back on when the caller does not supply it. *)
Inductive Default : Type :=
| Required
| DefaultValue (v : pyval)
| DefaultFactory (mk : World → pyval * World).

(** An annotated attribute of a class body: [name: type = default].
    [d_allow_none] is set for [Optional[...]] annotations. *)
Record FieldDecl : Type := {
  d_name : string;
  d_type : TypeValidator;
  d_allow_none : bool;
  d_default : Default
}.

(** [@validator(field, pre=..., always=...)]. *)
Record ValidatorDecl : Type := {
  v_field : string;
  v_pre : bool;
  v_always : bool;
  v_func : Validator
}.

(** [Config.extra]; the schemas use the default ([ignore]) and
    [allow]. *)
Inductive Extra : Type := ExtraIgnore | ExtraAllow.

(** A model class: its fields in declaration order, its field
    validators, its post root validators (each with its
    [skip_on_failure] flag) and its extra policy. *)
Record Model : Type := {
  m_name : string;
  m_fields : list FieldDecl;
  m_validators : list ValidatorDecl;
  m_root : list (bool * RootValidator);
  m_extra : Extra
}.

Definition BaseModel : Model :=
  {| m_name := "BaseModel"; m_fields := []; m_validators := [];
     m_root := []; m_extra := ExtraIgnore |}.

(** An annotation of a subclass replaces the inherited field of the
    same name in place; a new name is appended. *)
Fixpoint declare (fs : list FieldDecl) (d : FieldDecl) : list FieldDecl :=
  match fs with
  | [] => [d]
  | f :: fs' =>
      if decide (d_name f = d_name d) then d :: fs' else f :: declare fs' d
  end.

(** [class name(base): ...] with the given annotations, validators,
    root validators and, when the body has a [Config] that sets it,
    extra policy.  Everything else is inherited. *)
Definition subclass (base : Model) (name : string)
    (fields : list FieldDecl) (validators : list ValidatorDecl)
    (root : list (bool * RootValidator)) (extra : option Extra) : Model :=
  {| m_name := name;
     m_fields := fold_left declare fields (m_fields base);
     m_validators := m_validators base ++ validators;
     m_root := m_root base ++ root;
     m_extra := default (m_extra base) extra |}.

(** pydantic turns a [ValueError], [TypeError] or [AssertionError]
    raised while validating into an entry of the error list; any other
    exception leaves the constructor as it is. *)
Definition caught (e : exn) : bool :=
  match e with
  | AttributeError _ | KeyError _ => false
  | _ => true
  end.

(** *** Validators of the annotated types

    How pydantic converts a value to [str], [int], [UUID] or
    [datetime] (a string of digits to an [int], a unix time to a
    [datetime], ...), how it makes a value an instance of a model class
    (an instance is taken, a dict is passed to the constructor, under
    [orm_mode] an object is read attribute by attribute), which classes
    derive from which, and how it checks an [EmailStr] is pydantic's
    and Python's own code.  They are taken as given. *)
Record Conversions : Type := {
  str_validator : pyval → res pyval;
  int_validator : pyval → res pyval;
  uuid_validator : pyval → res pyval;
  datetime_validator : pyval → res pyval;
  model_validator : Model → TypeValidator;
  issubclass : string → string → bool;
  validate_email : string → option string
}.

(** What is used of them: a value that already has the annotated type
    is returned as it is (for a model class: an instance of the class
    or of a subclass); what a conversion returns has the annotated
    type; a conversion to [str], [int], [UUID] or [datetime] that fails
    raises an error that pydantic reports as a validation error. *)
Record conversions_ok (c : Conversions) : Prop := {
  str_id : ∀ s, str_validator c (PyStr s) = Ok (PyStr s);
  str_out : ∀ x v, str_validator c x = Ok v → ∃ s, v = PyStr s;
  str_caught : ∀ x e, str_validator c x = Raise e → caught e = true;
  int_id : ∀ z, int_validator c (PyInt z) = Ok (PyInt z);
  int_out : ∀ x v, int_validator c x = Ok v → ∃ z, v = PyInt z;
  int_caught : ∀ x e, int_validator c x = Raise e → caught e = true;
  uuid_id : ∀ u, uuid_validator c (PyUUID u) = Ok (PyUUID u);
  uuid_out : ∀ x v, uuid_validator c x = Ok v → ∃ u, v = PyUUID u;
  uuid_caught : ∀ x e, uuid_validator c x = Raise e → caught e = true;
  datetime_id : ∀ t, datetime_validator c (PyDatetime t) = Ok (PyDatetime t);
  datetime_out : ∀ x v, datetime_validator c x = Ok v → ∃ t, v = PyDatetime t;
  datetime_caught : ∀ x e, datetime_validator c x = Raise e → caught e = true;
  model_id : ∀ cls w cn attrs,
    issubclass c cn (m_name cls) = true →
    model_validator c cls w (PyModel cn attrs) = (Ok (PyModel cn attrs), w);
  model_out : ∀ cls w x v w',
    model_validator c cls w x = (Ok v, w') →
    ∃ cn attrs, v = PyModel cn attrs ∧ issubclass c cn (m_name cls) = true;
  issubclass_refl : ∀ cn, issubclass c cn cn = true
}.

(** A conversion that leaves the world alone. *)
Definition pure (g : pyval → res pyval) : TypeValidator := λ w v, (g v, w).

(** An item of a list: [None] is no item. *)
Definition validate_item (item : TypeValidator) (w : World) (x : pyval)
    : res pyval * World :=
  match x with
  | PyNone => (Raise NoneIsNotAllowedError, w)
  | _ => item w x
  end.

(** Of the errors of the items the first is kept; an exception that
    pydantic does not report goes before it. *)
Definition keep_first (e : exn) (rs : res (list pyval)) : res (list pyval) :=
  match rs with
  | Raise e' => if caught e' then Raise e else Raise e'
  | Ok _ => Raise e
  end.

(** The items of a list are validated one after the other.  An error
    that pydantic reports does not stop the others from being
    validated. *)
Fixpoint validate_items (item : TypeValidator) (l : list pyval) (w : World)
    : res (list pyval) * World :=
  match l with
  | [] => (Ok [], w)
  | x :: l' =>
      let '(r, w1) := validate_item item w x in
      match r with
      | Ok x' =>
          let '(rs, w2) := validate_items item l' w1 in
          (bind rs (λ r', Ok (x' :: r')), w2)
      | Raise e =>
          if caught e then
            let '(rs, w2) := validate_items item l' w1 in
            (keep_first e rs, w2)
          else (Raise e, w1)
      end
  end.

(** [list[item]]. *)
Definition list_validator (item : TypeValidator) : TypeValidator := λ w v,
  match v with
  | PyList l =>
      let '(r, w1) := validate_items item l w in
      (bind r (λ l', Ok (PyList l')), w1)
  | _ => (Raise (WrongTypeError "list"), w)
  end.

(** *** Validating one field *)

Definition pre_validators (m : Model) (f : FieldDecl) : list Validator :=
  v_func <$> filter (λ v, v_field v = d_name f ∧ v_pre v = true) (m_validators m).

Definition post_validators (m : Model) (f : FieldDecl) : list Validator :=
  v_func <$> filter (λ v, v_field v = d_name f ∧ v_pre v = false) (m_validators m).

Definition validate_always (m : Model) (f : FieldDecl) : bool :=
  existsb v_always (filter (λ v, v_field v = d_name f) (m_validators m)).

Fixpoint apply_validators (vs : list Validator) (w : World) (v : pyval) : res pyval :=
  match vs with
  | [] => Ok v
  | f :: vs' => bind (f w v) (apply_validators vs' w)
  end.

(** [ModelField.validate]: the [pre] validators see the raw value; a
    [None] then skips the type validator (or is refused when the field
    is not [Optional]); the remaining validators run last, also on an
    accepted [None]. *)
Definition field_validate (m : Model) (f : FieldDecl) (w : World) (v : pyval)
    : res pyval * World :=
  match apply_validators (pre_validators m f) w v with
  | Raise e => (Raise e, w)
  | Ok PyNone =>
      (if d_allow_none f then apply_validators (post_validators m f) w PyNone
       else Raise NoneIsNotAllowedError, w)
  | Ok v1 =>
      let '(r, w1) := d_type f w v1 in
      (bind r (apply_validators (post_validators m f) w1), w1)
  end.

Inductive FieldResult : Type :=
| Valid (v : pyval)
| Invalid (e : exn)
| Abort (e : exn).

Definition classify (r : res pyval) : FieldResult :=
  match r with
  | Ok v => Valid v
  | Raise e => if caught e then Invalid e else Abort e
  end.

(** One turn of the loop over the fields.  A field that is not
    supplied is an error when required; otherwise its default is taken
    (calling the factory, if any) and validated only when one of the
    field's validators is [always]. *)
Definition field_step (m : Model) (f : FieldDecl) (input : option pyval)
    (w : World) : FieldResult * World :=
  match input with
  | Some value =>
      let '(r, w1) := field_validate m f w value in (classify r, w1)
  | None =>
      match d_default f with
      | Required => (Invalid MissingError, w)
      | DefaultValue value =>
          if validate_always m f
          then let '(r, w1) := field_validate m f w value in (classify r, w1)
          else (Valid value, w)
      | DefaultFactory mk =>
          let '(value, w1) := mk w in
          if validate_always m f
          then let '(r, w2) := field_validate m f w1 value in (classify r, w2)
          else (Valid value, w1)
      end
  end.

Fixpoint validate_fields (m : Model) (fs : list FieldDecl)
    (kw values : gmap string pyval) (errors : list (string * exn))
    (w : World) : res (gmap string pyval * list (string * exn)) * World :=
  match fs with
  | [] => (Ok (values, errors), w)
  | f :: fs' =>
      let '(r, w1) := field_step m f (kw !! d_name f) w in
      match r with
      | Valid v => validate_fields m fs' kw (<[d_name f := v]> values) errors w1
      | Invalid e => validate_fields m fs' kw values (errors ++ [(d_name f, e)]) w1
      | Abort e => (Raise e, w1)
      end
  end.

(** The keyword arguments that name no field. *)
Definition extra_items (m : Model) (kw : gmap string pyval) : gmap string pyval :=
  filter (λ kv, kv.1 ∉ d_name <$> m_fields m) kw.

Definition add_extra (m : Model) (kw values : gmap string pyval) : gmap string pyval :=
  match m_extra m with
  | ExtraIgnore => values
  | ExtraAllow => extra_items m kw ∪ values
  end.

Fixpoint run_root_validators (rvs : list (bool * RootValidator))
    (values : gmap string pyval) (errors : list (string * exn))
    : res (gmap string pyval * list (string * exn)) :=
  match rvs with
  | [] => Ok (values, errors)
  | (skip_on_failure, rv) :: rest =>
      if skip_on_failure && negb (bool_decide (errors = []))
      then run_root_validators rest values errors
      else match rv values with
           | Ok values' => run_root_validators rest values' errors
           | Raise e =>
               if caught e
               then run_root_validators rest values (errors ++ [("__root__", e)])
               else Raise e
           end
  end.

(** What a call [Cls(kw)], with keyword arguments [kw], ends in. *)
Inductive Outcome : Type :=
| Constructed (self : gmap string pyval)
| ValidationError (errors : list (string * exn))
| Uncaught (e : exn).

(** The call itself: [validate_model], after which [__init__] stores
    the values as the [__dict__] of the new object. *)
Definition construct (m : Model) (kw : gmap string pyval) (w : World) : Outcome * World :=
  let '(r, w1) := validate_fields m (m_fields m) kw ∅ [] w in
  (match r with
   | Raise e => Uncaught e
   | Ok (values, errors) =>
       match run_root_validators (m_root m) (add_extra m kw values) errors with
       | Raise e => Uncaught e
       | Ok (values', []) => Constructed values'
       | Ok (_, errs) => ValidationError errs
       end
   end, w1).

End Pydantic.
Import Pydantic.

(** ** The schemas of [schemas.py] *)

Module Schemas.
Section Schemas.

(** What the module takes from outside: pydantic's conversions,
    [config.AUD], and the world in which the module is imported, where
    the class bodies are evaluated. *)
Variable c : Conversions.
Variable config_AUD : pyval.
Variable import_world : World.

(** The annotations [str], [int], [uuid.UUID] and [datetime]. *)
Definition str_type : TypeValidator := pure (str_validator c).
Definition int_type : TypeValidator := pure (int_validator c).
Definition uuid_type : TypeValidator := pure (uuid_validator c).
Definition datetime_type : TypeValidator := pure (datetime_validator c).

(** [EmailStr]: the value is made a string, which is then checked;
    the check returns the address in normal form. *)
Definition email_validator (v : pyval) : res pyval :=
  bind (str_validator c v) (λ v',
    match v' with
    | PyStr s =>
        match validate_email c s with
        | Some s' => Ok (PyStr s')
        | None => Raise (ValueError "value is not a valid email address")
        end
    | _ => Raise (WrongTypeError "str")
    end).

Definition email_type : TypeValidator := pure email_validator.

(** [name: type] *)
Definition required (name : string) (ty : TypeValidator) : FieldDecl :=
  {| d_name := name; d_type := ty; d_allow_none := false; d_default := Required |}.

(** [name: type = value] *)
Definition with_default (name : string) (ty : TypeValidator) (v : pyval) : FieldDecl :=
  {| d_name := name; d_type := ty; d_allow_none := false; d_default := DefaultValue v |}.

(** [name: Optional[type]], which defaults to [None] *)
Definition optional (name : string) (ty : TypeValidator) : FieldDecl :=
  {| d_name := name; d_type := ty; d_allow_none := true; d_default := DefaultValue PyNone |}.

(** [name: Optional[type] = value] *)
Definition optional_with (name : string) (ty : TypeValidator) (d : Default) : FieldDecl :=
  {| d_name := name; d_type := ty; d_allow_none := true; d_default := d |}.

(** [HashableBaseModel] only adds [__hash__], which plays no part in
    construction. *)
Definition HashableBaseModel : Model :=
  subclass BaseModel "HashableBaseModel" [] [] [] None.

(** *** Role *)

Definition every_scope_only_once : Validator := λ _ v,
  match v with
  | PyStr s =>
      let scope_list := str_split " " s in
      let check_list := list_of_set scope_list in
      let '(lhs, _) := list_sort list_leb [scope_list] in
      let '(rhs, _) := list_sort String.leb check_list in
      if py_eq lhs rhs then Ok v
      else Raise (ValueError
             "scopes has to be a string with every scope appearing only once")
  | _ => Raise (AttributeError "object has no attribute 'split'")
  end.

Definition RoleBase : Model :=
  subclass HashableBaseModel "RoleBase"
    [ required "name" str_type;
      optional_with "scopes" str_type (DefaultValue (PyStr "")) ]
    [ {| v_field := "scopes"; v_pre := false; v_always := false;
         v_func := every_scope_only_once |} ]
    [] None.

Definition get_scopes_as_list (self : gmap string pyval) : res pyval :=
  match self !! "scopes" with
  | Some PyNone => Ok (PyList [])
  | Some (PyStr s) => Ok (PyList (PyStr <$> str_split " " s))
  | Some _ => Raise (AttributeError "object has no attribute 'split'")
  | None => Raise (AttributeError "object has no attribute 'scopes'")
  end.

(** Returns the new string together with the updated object. *)
Definition set_scopes_from_list (self : gmap string pyval) (scopes : list pyval)
    : res (pyval * gmap string pyval) :=
  bind (str_items scopes) (λ items,
    let joined := PyStr (str_join " " items) in
    Ok (joined, <["scopes" := joined]> self)).

Definition RoleIn : Model := subclass RoleBase "RoleIn" [] [] [] None.

Definition RoleOut : Model := subclass RoleBase "RoleOut" [] [] [] None.

Definition RoleInDB : Model :=
  subclass RoleBase "RoleInDB"
    [ {| d_name := "id"; d_type := uuid_type; d_allow_none := false;
         d_default := DefaultFactory uuid4 |} ]
    [] [] None.

(** *** User *)

Definition UserBase : Model :=
  subclass HashableBaseModel "UserBase"
    [ required "username" email_type ] [] [] None.

Definition UserIn : Model :=
  subclass UserBase "UserIn"
    [ required "username" email_type;
      required "password" str_type;
      optional_with "roles" (list_validator str_type) (DefaultValue (PyList [])) ]
    [] [] None.

Definition check_for_no_data : RootValidator := λ values,
  bind (getitem values "username") (λ username,
  let username_check := is_none username in
  bind (getitem values "password") (λ password,
  let password_check := is_none password in
  bind (getitem values "roles") (λ roles,
  bind (py_len roles) (λ n,
  let roles_check := bool_decide (n = 0%Z) in
  if py_all [username_check; password_check; roles_check]
  then Raise (ValueError "No data received")
  else Ok values)))).

Definition UserInUpdate : Model :=
  subclass UserIn "UserInUpdate"
    [ optional "username" email_type;
      optional "password" str_type ]
    [] [ (true, check_for_no_data) ] None.

Definition UserOut : Model :=
  subclass UserBase "UserOut"
    [ optional_with "roles" (list_validator (model_validator c RoleBase))
        (DefaultValue (PyList [])) ]
    [] [] None.

Definition UserInDB : Model :=
  subclass UserBase "UserInDB"
    [ {| d_name := "id"; d_type := uuid_type; d_allow_none := false;
         d_default := DefaultFactory uuid4 |};
      required "hashed_password" str_type;
      optional_with "roles" (list_validator (model_validator c RoleInDB))
        (DefaultValue (PyList [])) ]
    [] [] None.

(** *** Intern DB models *)

Definition RefreshToken : Model :=
  subclass HashableBaseModel "RefreshToken"
    [ required "token" uuid_type;
      required "user" (model_validator c UserInDB);
      required "exp" int_type ]
    [] [] None.

Definition add_added_at : Validator := λ w _, Ok (utcnow w).

Definition KeyPair : Model :=
  subclass HashableBaseModel "KeyPair"
    [ required "kid" str_type;
      required "public_key" str_type;
      required "private_key" str_type;
      required "exp" datetime_type;
      optional "added_at" datetime_type ]
    [ {| v_field := "added_at"; v_pre := true; v_always := true;
         v_func := add_added_at |} ]
    [] None.

(** *** Pure response models *)

Definition TokenPair : Model :=
  subclass HashableBaseModel "TokenPair"
    [ required "access_token" str_type;
      with_default "token_type" str_type (PyStr "Bearer");
      required "refresh_token" uuid_type ]
    [] [] None.

(** The default of [iat] is the value [int(time())] had when the class
    body ran; the default of [jti] is the factory [uuid.uuid4]. *)
Definition Token : Model :=
  subclass HashableBaseModel "Token"
    [ optional_with "iss" str_type (DefaultValue (PyStr "authopie"));
      optional_with "sub" str_type (DefaultValue (PyStr "subject"));
      optional_with "aud" str_type (DefaultValue config_AUD);
      required "exp" int_type;
      optional_with "nbf" int_type (DefaultValue (PyInt 0));
      optional_with "iat" int_type (DefaultValue (int_time import_world));
      optional_with "jti" uuid_type (DefaultFactory uuid4);
      with_default "scopes" (list_validator str_type) (PyList []) ]
    [] [] (Some ExtraAllow).

Definition JWK : Model :=
  subclass HashableBaseModel "JWK"
    [ required "kid" str_type;
      with_default "kty" str_type (PyStr "RSA");
      with_default "alg" str_type (PyStr "RS256");
      with_default "use" str_type (PyStr "sig");
      required "n" str_type;
      with_default "e" str_type (PyStr "AQAB");
      optional "x5c" str_type;
      optional "x5t" str_type ]
    [] [] None.

Definition JWKS : Model :=
  subclass HashableBaseModel "JWKS"
    [ required "keys" (list_validator (model_validator c JWK)) ]
    [] [] None.

End Schemas.
End Schemas.
Import Schemas.

(** ** Properties and inputs the statements below refer to *)

(** The invariant the data model asks of access-token claims. *)
Definition exp_after_iat (self : gmap string pyval) : Prop :=
  ∃ e i, self !! "exp" = Some (PyInt e) ∧ self !! "iat" = Some (PyInt i) ∧ (i < e)%Z.

Definition jwk_field_names : gset string :=
  {[ "kid"; "kty"; "alg"; "use"; "n"; "e"; "x5c"; "x5t" ]}.

Definition a_world : World :=
  {| clock := 1700000000123456; uuid_source := N.of_nat; uuid_drawn := 0 |}.

Definition import_time : World :=
  {| clock := 100000000; uuid_source := N.of_nat; uuid_drawn := 0 |}.

Definition later_time : World :=
  {| clock := 200000000; uuid_source := N.of_nat; uuid_drawn := 0 |}.

Definition duplicated_role : gmap string pyval :=
  {[ "name" := PyStr "admin"; "scopes" := PyStr "read read" ]}.

Definition key_pair_args : gmap string pyval :=
  {[ "kid" := PyStr "2026-11"; "public_key" := PyStr "PUBLIC";
     "private_key" := PyStr "PRIVATE"; "exp" := PyDatetime 1800000000000000;
     "added_at" := PyDatetime 0 ]}.

Definition token_without_jti : gmap string pyval :=
  {[ "iss" := PyStr "authopie"; "sub" := PyStr "subject"; "aud" := PyStr "api";
     "exp" := PyInt 1700000900; "nbf" := PyInt 0; "iat" := PyInt 1700000000;
     "scopes" := PyList [] ]}.

Definition expired_token_args : gmap string pyval :=
  {[ "exp" := PyInt 5; "iat" := PyInt 10 ]}.

Definition jwk_args : gmap string pyval :=
  {[ "kid" := PyStr "2026-11"; "n" := PyStr "sXchDaQebHnPiGvyDOAT4saGEUetSyo9";
     "d" := PyStr "PRIVATE"; "private_key" := PyStr "PRIVATE" ]}.

Definition a_user : pyval :=
  PyModel "UserInDB"
    [ ("username", PyStr "ada@example.org"); ("id", PyUUID 7);
      ("hashed_password", PyStr "$2b$12$abcdefgh"); ("roles", PyList []) ].

Definition refresh_token_args : gmap string pyval :=
  {[ "token" := PyUUID 42; "user" := a_user; "exp" := PyInt 1700600000;
     "consumed" := PyBool false ]}.

Definition null_roles_update : gmap string pyval :=
  {[ "password" := PyStr "correct horse"; "roles" := PyNone ]}.

(** ** Hashing

    [HashableBaseModel.__hash__] hashes the tuple of the class and the
    values of the object's [__dict__].  What the numbers are is
    Python's business: the hash of a class, of an atomic value and the
    way a tuple combines the hashes of its items are taken as given.
    What matters here is when hashing raises: a list is unhashable,
    and so is every tuple that holds one. *)

Module Hashing.
Section Hashing.

Variable hash_type : string → Z.
Variable hash_atom : pyval → Z.
Variable hash_tuple : list Z → Z.

(** [hash(v)].  An instance of a model class is hashed by the
    [__hash__] it inherits from [HashableBaseModel]. *)
Fixpoint py_hash (v : pyval) : res Z :=
  match v with
  | PyList _ => Raise (TypeError "unhashable type: 'list'")
  | PyModel cls attrs =>
      bind ((fix hash_attrs (l : list (string * pyval)) : res (list Z) :=
               match l with
               | [] => Ok []
               | (_, x) :: l' =>
                   bind (py_hash x) (λ h,
                   bind (hash_attrs l') (λ hs, Ok (h :: hs)))
               end) attrs)
        (λ hs, Ok (hash_tuple (hash_type cls :: hs)))
  | _ => Ok (hash_atom v)
  end.

(** The hashes of the items of a tuple, taken from left to right. *)
Fixpoint hash_items (l : list pyval) : res (list Z) :=
  match l with
  | [] => Ok []
  | x :: l' =>
      bind (py_hash x) (λ h, bind (hash_items l') (λ hs, Ok (h :: hs)))
  end.

(** [self.__dict__.values()]: the values of the fields, in the order of
    their declaration, followed by those of the extra attributes (whose
    order among themselves Python does not fix). *)
Definition dict_values (m : Model) (self : gmap string pyval) : list pyval :=
  omap (λ f, self !! d_name f) (m_fields m)
  ++ (map_to_list (filter (λ kv, kv.1 ∉ d_name <$> m_fields m) self)).*2.

(** [HashableBaseModel.__hash__(self)] for an instance of [m]. *)
Definition __hash__ (m : Model) (self : gmap string pyval) : res Z :=
  bind (hash_items (dict_values m self))
    (λ hs, Ok (hash_tuple (hash_type (m_name m) :: hs))).

End Hashing.
End Hashing.
Import Hashing.

(** ** Further notions and inputs *)

(** The number of occurrences of a character in a string. *)
Fixpoint str_count (c : Ascii.ascii) (s : string) : nat :=
  match s with
  | EmptyString => 0
  | String a s' => (if Ascii.eqb a c then 1 else 0) + str_count c s'
  end.

Definition token_field_names : list string :=
  [ "iss"; "sub"; "aud"; "exp"; "nbf"; "iat"; "jti"; "scopes" ].

Definition a_role : gmap string pyval :=
  {[ "name" := PyStr "editor"; "scopes" := PyStr "read  write:all" ]}.

Definition role_args : gmap string pyval :=
  {[ "name" := PyStr "editor"; "scopes" := PyStr "read read write";
     "owner" := PyStr "ada" ]}.

Definition unnamed_role_args : gmap string pyval :=
  {[ "name" := PyStr "guest" ]}.

Definition null_scopes_args : gmap string pyval :=
  {[ "name" := PyStr "guest"; "scopes" := PyNone ]}.

Definition role_with_id_args : gmap string pyval :=
  {[ "name" := PyStr "guest"; "id" := PyUUID 99 ]}.

Definition used_world : World :=
  {| clock := 1700000000123456; uuid_source := N.of_nat; uuid_drawn := 7 |}.

Definition password_update : gmap string pyval :=
  {[ "password" := PyStr "correct horse"; "username" := PyNone ]}.

Definition empty_update : gmap string pyval :=
  {[ "username" := PyNone; "roles" := PyList []; "id" := PyUUID 3 ]}.

Definition full_update : gmap string pyval :=
  {[ "username" := PyStr "Ada@Example.ORG";
     "roles" := PyList [PyStr "editor"; PyStr "admin"] ]}.

Definition password_update_result : gmap string pyval :=
  {[ "username" := PyNone; "password" := PyStr "correct horse";
     "roles" := PyList [] ]}.

Definition token_args_with_extra : gmap string pyval :=
  {[ "exp" := PyInt 1700000900; "tenant" := PyStr "acme";
     "scopes" := PyList [PyStr "read"] ]}.

Definition token_args_without_exp : gmap string pyval :=
  {[ "sub" := PyStr "ada"; "scopes" := PyList [PyStr "read"] ]}.

Definition exp_only_args : gmap string pyval :=
  {[ "exp" := PyInt 1700000900 ]}.

Definition user_in_args : gmap string pyval :=
  {[ "username" := PyStr "ada@example.org"; "password" := PyStr "correct horse" ]}.

(** Stand-ins for Python's hashes, so that hashing can be run. *)
Definition sample_hash_type (cls : string) : Z := Z.of_nat (String.length cls).

Definition sample_hash_atom (v : pyval) : Z :=
  match v with
  | PyInt z => z
  | PyStr s => Z.of_nat (String.length s)
  | PyUUID u => Z.of_N u
  | PyDatetime t => t
  | PyBool true => 1
  | _ => 0
  end.

Definition sample_hash_tuple (hs : list Z) : Z := foldr Z.add 0%Z hs.

Definition user_in_result : gmap string pyval :=
  {[ "username" := PyStr "ada@example.org"; "password" := PyStr "correct horse";
     "roles" := PyList [] ]}.

(** The values Python hashes without looking inside: everything but
    lists and model instances. *)
Definition is_atom (v : pyval) : bool :=
  match v with
  | PyList _ | PyModel _ _ => false
  | _ => true
  end.


(** *** Conversions to run the schemas with

    Stand-ins for pydantic's conversions, so that construction can be
    evaluated: a value of the annotated type is taken as it is, an
    [int] becomes a [str] in decimal, a [bool] becomes an [int], an
    instance of the class itself is a valid model value, and an address
    needs an [@]. *)

Definition sample_str (v : pyval) : res pyval :=
  match v with
  | PyStr _ => Ok v
  | PyInt z => Ok (PyStr (NilZero.string_of_int (Z.to_int z)))
  | _ => Raise (TypeError "str type expected")
  end.

Definition sample_int (v : pyval) : res pyval :=
  match v with
  | PyInt _ => Ok v
  | PyBool b => Ok (PyInt (if b then 1 else 0))
  | _ => Raise (TypeError "value is not a valid integer")
  end.

Definition sample_uuid (v : pyval) : res pyval :=
  match v with
  | PyUUID _ => Ok v
  | _ => Raise (TypeError "value is not a valid uuid")
  end.

Definition sample_datetime (v : pyval) : res pyval :=
  match v with
  | PyDatetime _ => Ok v
  | _ => Raise (TypeError "invalid datetime format")
  end.

Definition sample_model (cls : Model) : TypeValidator := λ w v,
  (match v with
   | PyModel cn _ =>
       if String.eqb cn (m_name cls) then Ok v
       else Raise (TypeError "value is not a valid dict")
   | _ => Raise (TypeError "value is not a valid dict")
   end, w).

Definition has_at (s : string) : option string :=
  if str_contains "@" s then Some s else None.

Definition sample_conversions : Conversions :=
  {| str_validator := sample_str;
     int_validator := sample_int;
     uuid_validator := sample_uuid;
     datetime_validator := sample_datetime;
     model_validator := sample_model;
     issubclass := String.eqb;
     validate_email := has_at |}.

Definition converted_key_pair_args : gmap string pyval :=
  {[ "kid" := PyInt 1; "public_key" := PyStr "PUBLIC";
     "private_key" := PyStr "PRIVATE"; "exp" := PyDatetime 1800000000000000 ]}.

Definition converted_token_args : gmap string pyval :=
  {[ "exp" := PyBool true; "sub" := PyInt 42 ]}.

(** ** Splitting and joining *)

Lemma str_split_no_sep c s :
  str_contains c s = false → str_split c s = [s].
Proof.
  induction s as [|a s IH]; simpl; [done|].
  destruct (Ascii.eqb a c); simpl; [done|].
  intros Hs. by rewrite IH.
Qed.

Lemma str_split_piece c x s :
  str_contains c x = false →
  str_split c (x +:+ String c s) = x :: str_split c s.
Proof.
  induction x as [|a x IH]; simpl.
  - intros _. by rewrite Ascii.eqb_refl.
  - destruct (Ascii.eqb a c); simpl; [done|].
    intros Hx. by rewrite IH.
Qed.

Lemma str_split_join c l :
  l ≠ [] →
  Forall (λ s, str_contains c s = false) l →
  str_split c (str_join (String c "") l) = l.
Proof.
  intros Hne Hl. induction Hl as [|x l Hx Hl IH]; [done|].
  destruct l as [|y l].
  - simpl. by apply str_split_no_sep.
  - change (str_join (String c "") (x :: y :: l))
      with (x +:+ String c (str_join (String c "") (y :: l))).
    rewrite str_split_piece by done. by rewrite IH.
Qed.

Lemma str_items_strs l : str_items (PyStr <$> l) = Ok l.
Proof.
  induction l as [|x l IH]; [done|].
  rewrite fmap_cons. simpl. by rewrite IH.
Qed.

(** ** Role *)

(** C10.  Storing a non-empty list of scopes none of which contains a
    space with [set_scopes_from_list] and reading it back with
    [get_scopes_as_list] returns the list; for the empty list the
    result is the one-element list holding the empty string. *)
Theorem scopes_list_round_trip (self : gmap string pyval) (l : list string) :
  Forall (λ s, str_contains " " s = false) l →
  ∃ self',
    set_scopes_from_list self (PyStr <$> l)
      = Ok (PyStr (str_join " " l), self') ∧
    get_scopes_as_list self'
      = Ok (PyList (PyStr <$> (if decide (l = []) then [""] else l))).
Proof.
  intros Hl. eexists. split.
  - unfold set_scopes_from_list. by rewrite str_items_strs.
  - unfold get_scopes_as_list. rewrite lookup_insert_eq.
    case_decide as Hnil.
    + by subst l.
    + by rewrite (str_split_join " " l).
Qed.

Lemma scopes_list_round_trip_witness :
  ∃ self',
    set_scopes_from_list ∅ [PyStr "read"; PyStr ""; PyStr "write"]
      = Ok (PyStr "read  write", self') ∧
    get_scopes_as_list self' = Ok (PyList [PyStr "read"; PyStr ""; PyStr "write"]).
Proof.
  apply (scopes_list_round_trip ∅ ["read"; ""; "write"]).
  repeat constructor.
Defined.

(** ** Model construction *)

Lemma validate_fields_errors m fs kw vals errs w vals' errs' w' :
  validate_fields m fs kw vals errs w = (Ok (vals', errs'), w') →
  ∃ more, errs' = (errs ++ more)%list.
Proof.
  revert vals errs w. induction fs as [|f fs IH]; simpl; intros vals errs w H.
  - exists []. rewrite app_nil_r. congruence.
  - destruct (field_step m f (kw !! d_name f) w) as [[v|e|e] w1].
    + eauto.
    + apply IH in H as [more ->]. rewrite <- app_assoc. eauto.
    + discriminate.
Qed.

(** When the loop ends without an error, its first turn produced a
    value and the rest of the loop ran on from there. *)
Lemma validate_fields_cons m f fs kw vals w vals' w' :
  validate_fields m (f :: fs) kw vals [] w = (Ok (vals', []), w') →
  ∃ v w1,
    field_step m f (kw !! d_name f) w = (Valid v, w1) ∧
    validate_fields m fs kw (<[d_name f := v]> vals) [] w1 = (Ok (vals', []), w').
Proof.
  simpl. destruct (field_step m f (kw !! d_name f) w) as [[v|e|e] w1]; intros H.
  - eauto.
  - apply validate_fields_errors in H as [more H]. by destruct more.
  - discriminate.
Qed.

Lemma validate_fields_nil m kw vals w vals' w' :
  validate_fields m [] kw vals [] w = (Ok (vals', []), w') →
  vals' = vals ∧ w' = w.
Proof. simpl. intros H. by simplify_eq. Qed.

Lemma run_root_validators_errors rvs vals errs vals' errs' :
  run_root_validators rvs vals errs = Ok (vals', errs') →
  ∃ more, errs' = (errs ++ more)%list.
Proof.
  revert vals errs. induction rvs as [|[skip rv] rvs IH]; simpl; intros vals errs H.
  - exists []. rewrite app_nil_r. congruence.
  - destruct (skip && negb (bool_decide (errs = []))); [eauto|].
    destruct (rv vals) as [vals1|e]; [eauto|].
    destruct (caught e); [|discriminate].
    apply IH in H as [more ->]. rewrite <- app_assoc. eauto.
Qed.

(** A constructed object comes from a loop over the fields that found
    no error, followed by root validators that raised none. *)
Lemma construct_inv m kw w self w' :
  construct m kw w = (Constructed self, w') →
  ∃ vals,
    validate_fields m (m_fields m) kw ∅ [] w = (Ok (vals, []), w') ∧
    run_root_validators (m_root m) (add_extra m kw vals) [] = Ok (self, []).
Proof.
  unfold construct.
  destruct (validate_fields m (m_fields m) kw ∅ [] w) as [[[vals errs]|e] w1] eqn:Hf;
    [|intros; simplify_eq].
  destruct (run_root_validators _ _ errs) as [[vals' errs']|e] eqn:Hr;
    [|intros; simplify_eq].
  destruct errs' as [|e' errs']; intros H; simplify_eq.
  destruct (run_root_validators_errors _ _ _ _ _ Hr) as [more Hm].
  destruct errs; [|done]. eauto.
Qed.

(** A conversion that leaves the world alone does so for the items of
    a list as well. *)
Lemma validate_items_world item l w :
  (∀ w x, (item w x).2 = w) → (validate_items item l w).2 = w.
Proof.
  intros Hitem. revert w. induction l as [|x l IH]; intros w; simpl; [done|].
  assert ((validate_item item w x).2 = w) as Hx by (destruct x; by simpl).
  destruct (validate_item item w x) as [r w1]. simpl in Hx. subst w1.
  specialize (IH w).
  destruct r as [x'|e]; [|destruct (caught e); [|done]];
    by destruct (validate_items item l w).
Qed.

Lemma list_validator_world item w x :
  (∀ w x, (item w x).2 = w) → (list_validator item w x).2 = w.
Proof.
  intros Hitem. destruct x; simpl; try done.
  pose proof (validate_items_world item l w Hitem) as H.
  by destruct (validate_items item l w).
Qed.

Lemma list_validator_Ok item w x v w' :
  list_validator item w x = (Ok v, w') → ∃ l, v = PyList l.
Proof.
  destruct x; simpl; intros H; simplify_eq.
  destruct (validate_items item l w) as [[l'|e] w1]; simpl in H; simplify_eq.
  eauto.
Qed.

(** A field leaves the world as it is when its default is no factory
    and its type is converted without touching the world. *)
Lemma field_step_world m f input w r w1 :
  (∀ mk, d_default f ≠ DefaultFactory mk) →
  (∀ w x, (d_type f w x).2 = w) →
  field_step m f input w = (r, w1) → w1 = w.
Proof.
  intros Hd Hty.
  assert (∀ v, (field_validate m f w v).2 = w) as Hfv.
  { intros v. unfold field_validate.
    destruct (apply_validators (pre_validators m f) w v) as [[]|]; simpl; try done;
      match goal with
      | |- context [d_type f w ?x] =>
          specialize (Hty w x); by destruct (d_type f w x)
      end. }
  unfold field_step. destruct input as [value|].
  - specialize (Hfv value). destruct (field_validate m f w value).
    simpl in Hfv. congruence.
  - destruct (d_default f) as [|value|mk]; [congruence| |by destruct (Hd mk)].
    destruct (validate_always m f); [|congruence].
    specialize (Hfv value). destruct (field_validate m f w value).
    simpl in Hfv. congruence.
Qed.

(** The value a field without validators ends up with: the default
    when nothing is supplied, [None] when [None] is supplied to an
    [Optional] field, and otherwise what the conversion to its type
    returns. *)
Lemma field_step_plain m f input w v w' :
  pre_validators m f = [] → post_validators m f = [] →
  validate_always m f = false →
  field_step m f input w = (Valid v, w') →
  match input with
  | Some PyNone => d_allow_none f = true ∧ v = PyNone ∧ w' = w
  | Some x => d_type f w x = (Ok v, w')
  | None =>
      match d_default f with
      | Required => False
      | DefaultValue d => v = d ∧ w' = w
      | DefaultFactory mk => mk w = (v, w')
      end
  end.
Proof.
  unfold field_step, field_validate. intros -> -> ->. simpl.
  destruct input as [x|].
  - destruct x; simpl; intros H;
      try (destruct (d_type f w _) as [[y|e] w1]; simpl in H;
           [by simplify_eq|destruct (caught e); by simplify_eq]).
    destruct (d_allow_none f); simpl in H; by simplify_eq.
  - destruct (d_default f) as [|d|mk]; intros H; try by simplify_eq.
    destruct (mk w). by simplify_eq.
Qed.

Lemma pure_Ok g w x v w' : pure g w x = (Ok v, w') → g x = Ok v ∧ w' = w.
Proof. unfold pure. intros H. by simplify_eq. Qed.

(** A supplied value that is not [None], for a field without
    validators, is converted to the field's type. *)
Lemma field_step_given m f x w :
  pre_validators m f = [] → post_validators m f = [] →
  x ≠ PyNone →
  field_step m f (Some x) w = (classify (d_type f w x).1, (d_type f w x).2).
Proof.
  unfold field_step, field_validate. intros -> -> Hx. simpl.
  destruct x; try done; destruct (d_type f w _) as [[y|e] w1]; done.
Qed.

Ltac peel H :=
  let v := fresh "v" in
  let w := fresh "w" in
  let Hs := fresh "Hstep" in
  apply validate_fields_cons in H as (v & w & Hs & H); simpl d_name in *.

Ltac same_world H :=
  match type of H with
  | field_step _ _ _ _ = _ =>
      let E := fresh "E" in
      pose proof H as E; apply field_step_world in E;
      [subst | by intros ? | first [by intros ? ? | by intros ? ?; apply list_validator_world]]
  end.

Ltac fields_of m fs :=
  unfold construct; change (m_fields m) with fs;
  cbn [validate_fields d_name required optional optional_with with_default].

(** For a class without root validators that ignores extra keyword
    arguments the object is what the loop over the fields left. *)
Lemma plain_model_self m kw vals self :
  m_root m = [] → m_extra m = ExtraIgnore →
  run_root_validators (m_root m) (add_extra m kw vals) [] = Ok (self, []) →
  self = vals.
Proof.
  unfold add_extra. intros -> ->. simpl. congruence.
Qed.

Lemma add_extra_lookup_field m kw vals k :
  k ∈ d_name <$> m_fields m → add_extra m kw vals !! k = vals !! k.
Proof.
  intros Hk. unfold add_extra. destruct (m_extra m); [done|].
  apply lookup_union_r. unfold extra_items.
  apply map_lookup_filter_None. right. intros v _ Hn. by apply Hn.
Qed.

Lemma add_extra_lookup_union m kw (vals : gmap string pyval) k :
  k ∈ d_name <$> m_fields m →
  (extra_items m kw ∪ vals) !! k = vals !! k.
Proof.
  intros Hk. apply lookup_union_r. unfold extra_items.
  apply map_lookup_filter_None. right. intros v _ Hn. by apply Hn.
Qed.

Lemma no_root_self m kw vals self :
  m_root m = [] →
  run_root_validators (m_root m) (add_extra m kw vals) [] = Ok (self, []) →
  self = add_extra m kw vals.
Proof. intros ->. simpl. congruence. Qed.

(** The stand-in conversions are conversions. *)
Lemma sample_conversions_ok : conversions_ok sample_conversions.
Proof.
  split; simpl.
  - done.
  - intros [] v H; simpl in H; simplify_eq; eauto.
  - intros [] e H; simpl in H; by simplify_eq.
  - done.
  - intros [] v H; simpl in H; simplify_eq; eauto.
  - intros [] e H; simpl in H; by simplify_eq.
  - done.
  - intros [] v H; simpl in H; simplify_eq; eauto.
  - intros [] e H; simpl in H; by simplify_eq.
  - done.
  - intros [] v H; simpl in H; simplify_eq; eauto.
  - intros [] e H; simpl in H; by simplify_eq.
  - intros cls w cn attrs Hsub. unfold sample_model. by rewrite Hsub.
  - intros cls w [] v w' H; unfold sample_model in H; simplify_eq.
    destruct (String.eqb cls0 (m_name cls)) eqn:E; simplify_eq. eauto.
  - apply String.eqb_refl.
Qed.

(** ** Role *)

(** The comparison in [every_scope_only_once] is between the values of
    two [sort()] calls, which are both [None]: every string passes. *)
Lemma every_scope_only_once_accepts w s :
  every_scope_only_once w (PyStr s) = Ok (PyStr s).
Proof. reflexivity. Qed.

(** The turns of the loop for the name and the scopes of a role, in a
    class with the validators of [RoleBase]. *)
Lemma Role_name_step c m n w :
  conversions_ok c →
  m_validators m = m_validators (RoleBase c) →
  field_step m (required "name" (str_type c)) (Some (PyStr n)) w
    = (Valid (PyStr n), w).
Proof.
  intros Hc Hm. rewrite field_step_given; [|unfold pre_validators, post_validators; by rewrite Hm..|done].
  unfold str_type, pure. simpl. by rewrite (str_id c Hc).
Qed.

Lemma Role_scopes_step c m s w :
  conversions_ok c →
  m_validators m = m_validators (RoleBase c) →
  field_step m (optional_with "scopes" (str_type c) (DefaultValue (PyStr "")))
    (Some (PyStr s)) w
    = (Valid (PyStr s), w).
Proof.
  intros Hc Hm. unfold field_step, field_validate, pre_validators, post_validators.
  rewrite Hm. simpl. unfold str_type, pure. by rewrite (str_id c Hc).
Qed.

Lemma Role_scopes_default c m w :
  m_validators m = m_validators (RoleBase c) →
  field_step m (optional_with "scopes" (str_type c) (DefaultValue (PyStr "")))
    None w
    = (Valid (PyStr ""), w).
Proof.
  intros Hm. unfold field_step, validate_always. by rewrite Hm.
Qed.

(** A role with a string as name and a string as scopes is
    constructed, whatever the scopes are. *)
Lemma Role_construct c (kw : gmap string pyval) w n s :
  conversions_ok c →
  kw !! "name" = Some (PyStr n) →
  kw !! "scopes" = Some (PyStr s) →
  let self : gmap string pyval := {[ "name" := PyStr n; "scopes" := PyStr s ]} in
  construct (RoleBase c) kw w = (Constructed self, w) ∧
  construct (RoleIn c) kw w = (Constructed self, w) ∧
  construct (RoleOut c) kw w = (Constructed self, w).
Proof.
  intros Hc Hn Hs self. subst self.
  repeat split.
  - fields_of (RoleBase c)
      [ required "name" (str_type c);
        optional_with "scopes" (str_type c) (DefaultValue (PyStr "")) ].
    rewrite Hn, Hs, Role_name_step, Role_scopes_step by done. reflexivity.
  - fields_of (RoleIn c)
      [ required "name" (str_type c);
        optional_with "scopes" (str_type c) (DefaultValue (PyStr "")) ].
    rewrite Hn, Hs, Role_name_step, Role_scopes_step by done. reflexivity.
  - fields_of (RoleOut c)
      [ required "name" (str_type c);
        optional_with "scopes" (str_type c) (DefaultValue (PyStr "")) ].
    rewrite Hn, Hs, Role_name_step, Role_scopes_step by done. reflexivity.
Qed.

Lemma RoleInDB_construct c (kw : gmap string pyval) w n s :
  conversions_ok c →
  kw !! "name" = Some (PyStr n) →
  kw !! "scopes" = Some (PyStr s) →
  kw !! "id" = None →
  construct (RoleInDB c) kw w
    = (Constructed {[ "name" := PyStr n; "scopes" := PyStr s;
                      "id" := (uuid4 w).1 ]}, (uuid4 w).2).
Proof.
  intros Hc Hn Hs Hid.
  fields_of (RoleInDB c)
    [ required "name" (str_type c);
      optional_with "scopes" (str_type c) (DefaultValue (PyStr ""));
      {| d_name := "id"; d_type := uuid_type c; d_allow_none := false;
         d_default := DefaultFactory uuid4 |} ].
  rewrite Hn, Hs, Hid, Role_name_step, Role_scopes_step by done.
  reflexivity.
Qed.

(** C1.  A role whose scopes string names the scope [read] twice is
    constructed, with the scopes stored as given, by each of the four
    role classes: the validator [every_scope_only_once] does not reject
    the duplicate. *)
Theorem duplicated_scope_is_accepted c (w : World) :
  conversions_ok c →
  str_split " " "read read" = ["read"; "read"] ∧
  (construct (RoleBase c) duplicated_role w).1 = Constructed duplicated_role ∧
  (construct (RoleIn c) duplicated_role w).1 = Constructed duplicated_role ∧
  (construct (RoleOut c) duplicated_role w).1 = Constructed duplicated_role ∧
  (construct (RoleInDB c) duplicated_role w).1
    = Constructed (<["id" := (uuid4 w).1]> duplicated_role).
Proof.
  intros Hc.
  destruct (Role_construct c duplicated_role w "admin" "read read" Hc eq_refl eq_refl)
    as (Hb & Hi & Ho).
  split; [reflexivity|].
  rewrite Hb, Hi, Ho.
  rewrite (RoleInDB_construct c duplicated_role w "admin" "read read" Hc)
    by reflexivity.
  repeat split.
Qed.

Lemma duplicated_scope_is_accepted_witness :
  str_split " " "read read" = ["read"; "read"] ∧
  (construct (RoleBase sample_conversions) duplicated_role a_world).1
    = Constructed duplicated_role ∧
  (construct (RoleIn sample_conversions) duplicated_role a_world).1
    = Constructed duplicated_role ∧
  (construct (RoleOut sample_conversions) duplicated_role a_world).1
    = Constructed duplicated_role ∧
  (construct (RoleInDB sample_conversions) duplicated_role a_world).1
    = Constructed (<["id" := PyUUID 0]> duplicated_role).
Proof.
  apply (duplicated_scope_is_accepted sample_conversions a_world
           sample_conversions_ok).
Defined.

(** ** KeyPair *)

(** Whatever is passed as [added_at], the turn of the loop for it
    yields the current time. *)
Lemma added_at_step c input w :
  conversions_ok c →
  field_step (KeyPair c) (optional "added_at" (datetime_type c)) input w
    = (Valid (utcnow w), w).
Proof.
  intros Hc. unfold field_step, field_validate.
  destruct input as [given|]; simpl; unfold datetime_type, pure, utcnow;
    by rewrite (datetime_id c Hc).
Qed.

(** C3.  In every constructed key pair [added_at] is the time at which
    it was constructed, whatever the caller passed as [added_at]. *)
Theorem KeyPair_added_at_is_now c kw w self w' :
  conversions_ok c →
  construct (KeyPair c) kw w = (Constructed self, w') →
  self !! "added_at" = Some (utcnow w).
Proof.
  intros Hc H. apply construct_inv in H as (vals & Hf & Hr).
  change (m_fields (KeyPair c)) with
    [ required "kid" (str_type c);
      required "public_key" (str_type c);
      required "private_key" (str_type c);
      required "exp" (datetime_type c);
      optional "added_at" (datetime_type c) ] in Hf.
  do 5 peel Hf.
  apply validate_fields_nil in Hf as [-> ->].
  apply plain_model_self in Hr; [subst self|done..].
  repeat match goal with H : field_step _ (required _ _) _ _ = _ |- _ =>
    same_world H; clear H end.
  rewrite (added_at_step c _ _ Hc) in Hstep3. simplify_eq.
  by rewrite lookup_insert_eq.
Qed.

Lemma KeyPair_added_at_is_now_witness :
  (∃ self,
     construct (KeyPair sample_conversions) key_pair_args a_world
       = (Constructed self, a_world) ∧
     self !! "added_at" = Some (PyDatetime 1700000000123456)) ∧
  (∃ self,
     construct (KeyPair sample_conversions) converted_key_pair_args a_world
       = (Constructed self, a_world) ∧
     self !! "kid" = Some (PyStr "1") ∧
     self !! "added_at" = Some (PyDatetime 1700000000123456)).
Proof.
  split; eexists; (split; [vm_compute; reflexivity|]).
  - apply (KeyPair_added_at_is_now sample_conversions key_pair_args a_world
             _ a_world sample_conversions_ok).
    vm_compute; reflexivity.
  - split; [vm_compute; reflexivity|].
    apply (KeyPair_added_at_is_now sample_conversions converted_key_pair_args
             a_world _ a_world sample_conversions_ok).
    vm_compute; reflexivity.
Defined.

(** ** Token *)

(** What a constructed token says about the turns of the loop for
    [exp], [nbf], [iat] and [jti]: the first three leave the world
    alone, and the world after [jti] is the one the call ends in. *)
Lemma Token_steps c aud wi kw w self w' :
  construct (Token c aud wi) kw w = (Constructed self, w') →
  ∃ exp nbf iat jti,
    field_step (Token c aud wi) (required "exp" (int_type c))
      (kw !! "exp") w = (Valid exp, w) ∧
    field_step (Token c aud wi)
      (optional_with "nbf" (int_type c) (DefaultValue (PyInt 0)))
      (kw !! "nbf") w = (Valid nbf, w) ∧
    field_step (Token c aud wi)
      (optional_with "iat" (int_type c) (DefaultValue (int_time wi)))
      (kw !! "iat") w = (Valid iat, w) ∧
    field_step (Token c aud wi)
      (optional_with "jti" (uuid_type c) (DefaultFactory uuid4))
      (kw !! "jti") w = (Valid jti, w') ∧
    self !! "exp" = Some exp ∧ self !! "nbf" = Some nbf ∧
    self !! "iat" = Some iat ∧ self !! "jti" = Some jti.
Proof.
  intros H. apply construct_inv in H as (vals & Hf & Hr).
  apply no_root_self in Hr; [subst self|done].
  change (m_fields (Token c aud wi)) with
    [ optional_with "iss" (str_type c) (DefaultValue (PyStr "authopie"));
      optional_with "sub" (str_type c) (DefaultValue (PyStr "subject"));
      optional_with "aud" (str_type c) (DefaultValue aud);
      required "exp" (int_type c);
      optional_with "nbf" (int_type c) (DefaultValue (PyInt 0));
      optional_with "iat" (int_type c) (DefaultValue (int_time wi));
      optional_with "jti" (uuid_type c) (DefaultFactory uuid4);
      with_default "scopes" (list_validator (str_type c)) (PyList []) ] in Hf.
  do 8 peel Hf.
  apply validate_fields_nil in Hf as [-> ->].
  same_world Hstep. same_world Hstep0. same_world Hstep1.
  same_world Hstep2. same_world Hstep3. same_world Hstep4.
  same_world Hstep6.
  exists v2, v3, v4, v5. repeat split; try done;
    (rewrite add_extra_lookup_field; [by simplify_map_eq|]);
    change (m_fields (Token c aud wi)) with
      [ optional_with "iss" (str_type c) (DefaultValue (PyStr "authopie"));
        optional_with "sub" (str_type c) (DefaultValue (PyStr "subject"));
        optional_with "aud" (str_type c) (DefaultValue aud);
        required "exp" (int_type c);
        optional_with "nbf" (int_type c) (DefaultValue (PyInt 0));
        optional_with "iat" (int_type c) (DefaultValue (int_time wi));
        optional_with "jti" (uuid_type c) (DefaultFactory uuid4);
        with_default "scopes" (list_validator (str_type c)) (PyList []) ];
    set_solver.
Qed.

Lemma Token_field_names c aud wi :
  d_name <$> m_fields (Token c aud wi) = token_field_names.
Proof. reflexivity. Qed.

(** An omitted field that has a plain default takes it. *)
Lemma default_step m f w v w' d :
  pre_validators m f = [] → post_validators m f = [] →
  validate_always m f = false →
  d_default f = DefaultValue d →
  field_step m f None w = (Valid v, w') → v = d.
Proof.
  intros Hpre Hpost Hal Hd H. apply field_step_plain in H; [|done..].
  simpl in H. rewrite Hd in H. by destruct H.
Qed.

(** Forwards: an omitted field with a plain default and no [always]
    validator, and an integer supplied to an [int] field. *)
Lemma field_step_omitted m f w d :
  validate_always m f = false →
  d_default f = DefaultValue d →
  field_step m f None w = (Valid d, w).
Proof. intros Hal Hd. unfold field_step. by rewrite Hd, Hal. Qed.

Lemma int_given c m f z w :
  conversions_ok c →
  pre_validators m f = [] → post_validators m f = [] →
  d_type f = int_type c →
  field_step m f (Some (PyInt z)) w = (Valid (PyInt z), w).
Proof.
  intros Hc Hpre Hpost Hty. rewrite field_step_given by done.
  rewrite Hty. unfold int_type, pure. simpl. by rewrite (int_id c Hc).
Qed.

Lemma str_given c m f s w :
  conversions_ok c →
  pre_validators m f = [] → post_validators m f = [] →
  d_type f = str_type c →
  field_step m f (Some (PyStr s)) w = (Valid (PyStr s), w).
Proof.
  intros Hc Hpre Hpost Hty. rewrite field_step_given by done.
  rewrite Hty. unfold str_type, pure. simpl. by rewrite (str_id c Hc).
Qed.

(** A supplied integer is what an [int] field ends up with. *)
Lemma int_step c m f z w v w' :
  conversions_ok c →
  pre_validators m f = [] → post_validators m f = [] →
  validate_always m f = false →
  d_type f = int_type c →
  field_step m f (Some (PyInt z)) w = (Valid v, w') → v = PyInt z.
Proof.
  intros Hc Hpre Hpost Hal Hty H. apply field_step_plain in H; [|done..].
  simpl in H. rewrite Hty in H. apply pure_Ok in H as [H _].
  rewrite (int_id c Hc) in H. by simplify_eq.
Qed.

(** C8.  A token constructed without [nbf] has [nbf] equal to 0. *)
Theorem Token_nbf_defaults_to_zero c aud wi kw w self w' :
  kw !! "nbf" = None →
  construct (Token c aud wi) kw w = (Constructed self, w') →
  self !! "nbf" = Some (PyInt 0).
Proof.
  intros Hkw H.
  apply Token_steps in H as (exp & nbf & iat & jti & _ & Hnbf & _ & _ & _ & -> & _).
  rewrite Hkw in Hnbf. by apply default_step with (d := PyInt 0) in Hnbf as ->.
Qed.

Lemma Token_nbf_defaults_to_zero_witness :
  (∃ self w',
     construct (Token sample_conversions (PyStr "api") a_world)
       {[ "exp" := PyInt 1700000900 ]} a_world
       = (Constructed self, w') ∧
     self !! "nbf" = Some (PyInt 0)) ∧
  (∃ self w',
     construct (Token sample_conversions (PyStr "api") a_world)
       converted_token_args a_world
       = (Constructed self, w') ∧
     self !! "exp" = Some (PyInt 1) ∧ self !! "sub" = Some (PyStr "42") ∧
     self !! "nbf" = Some (PyInt 0)).
Proof.
  split; do 2 eexists; (split; [vm_compute; reflexivity|]).
  - eapply (Token_nbf_defaults_to_zero sample_conversions (PyStr "api") a_world
              {[ "exp" := PyInt 1700000900 ]} a_world);
      vm_compute; reflexivity.
  - split; [vm_compute; reflexivity|]. split; [vm_compute; reflexivity|].
    eapply (Token_nbf_defaults_to_zero sample_conversions (PyStr "api") a_world
              converted_token_args a_world);
      vm_compute; reflexivity.
Defined.

(** The default of [iat] is the time at which the module was imported,
    whenever the token is constructed. *)
Lemma Token_iat_default c aud wi kw w self w' :
  kw !! "iat" = None →
  construct (Token c aud wi) kw w = (Constructed self, w') →
  self !! "iat" = Some (int_time wi).
Proof.
  intros Hkw H.
  apply Token_steps in H as (exp & nbf & iat & jti & _ & _ & Hiat & _ & _ & _ & -> & _).
  rewrite Hkw in Hiat. by apply default_step with (d := int_time wi) in Hiat as ->.
Qed.

(** A token for which only an integer [exp] is passed, besides
    keyword arguments that name no field. *)
Lemma Token_construct_minimal c aud wi (kw : gmap string pyval) w e :
  conversions_ok c →
  kw !! "iss" = None → kw !! "sub" = None → kw !! "aud" = None →
  kw !! "exp" = Some (PyInt e) →
  kw !! "nbf" = None → kw !! "iat" = None → kw !! "jti" = None →
  kw !! "scopes" = None →
  construct (Token c aud wi) kw w
    = (Constructed
         (extra_items (Token c aud wi) kw ∪
          {[ "iss" := PyStr "authopie"; "sub" := PyStr "subject"; "aud" := aud;
             "exp" := PyInt e; "nbf" := PyInt 0; "iat" := int_time wi;
             "jti" := (uuid4 w).1; "scopes" := PyList [] ]}),
       (uuid4 w).2).
Proof.
  intros Hc Hiss Hsub Haud Hexp Hnbf Hiat Hjti Hscopes.
  fields_of (Token c aud wi)
    [ optional_with "iss" (str_type c) (DefaultValue (PyStr "authopie"));
      optional_with "sub" (str_type c) (DefaultValue (PyStr "subject"));
      optional_with "aud" (str_type c) (DefaultValue aud);
      required "exp" (int_type c);
      optional_with "nbf" (int_type c) (DefaultValue (PyInt 0));
      optional_with "iat" (int_type c) (DefaultValue (int_time wi));
      optional_with "jti" (uuid_type c) (DefaultFactory uuid4);
      with_default "scopes" (list_validator (str_type c)) (PyList []) ].
  rewrite Hiss, Hsub, Haud, Hexp, Hnbf, Hiat, Hjti, Hscopes.
  do 3 (erewrite field_step_omitted by done; cbv beta iota).
  rewrite (int_given c _ _ e w Hc) by done. cbv beta iota.
  do 2 (erewrite field_step_omitted by done; cbv beta iota).
  reflexivity.
Qed.

(** The same with an integer [iat] passed as well. *)
Lemma Token_construct_exp_iat c aud wi (kw : gmap string pyval) w e i :
  conversions_ok c →
  kw !! "iss" = None → kw !! "sub" = None → kw !! "aud" = None →
  kw !! "exp" = Some (PyInt e) →
  kw !! "nbf" = None → kw !! "iat" = Some (PyInt i) → kw !! "jti" = None →
  kw !! "scopes" = None →
  construct (Token c aud wi) kw w
    = (Constructed
         (extra_items (Token c aud wi) kw ∪
          {[ "iss" := PyStr "authopie"; "sub" := PyStr "subject"; "aud" := aud;
             "exp" := PyInt e; "nbf" := PyInt 0; "iat" := PyInt i;
             "jti" := (uuid4 w).1; "scopes" := PyList [] ]}),
       (uuid4 w).2).
Proof.
  intros Hc Hiss Hsub Haud Hexp Hnbf Hiat Hjti Hscopes.
  fields_of (Token c aud wi)
    [ optional_with "iss" (str_type c) (DefaultValue (PyStr "authopie"));
      optional_with "sub" (str_type c) (DefaultValue (PyStr "subject"));
      optional_with "aud" (str_type c) (DefaultValue aud);
      required "exp" (int_type c);
      optional_with "nbf" (int_type c) (DefaultValue (PyInt 0));
      optional_with "iat" (int_type c) (DefaultValue (int_time wi));
      optional_with "jti" (uuid_type c) (DefaultFactory uuid4);
      with_default "scopes" (list_validator (str_type c)) (PyList []) ].
  rewrite Hiss, Hsub, Haud, Hexp, Hnbf, Hiat, Hjti, Hscopes.
  do 3 (erewrite field_step_omitted by done; cbv beta iota).
  rewrite (int_given c _ _ e w Hc) by done. cbv beta iota.
  erewrite field_step_omitted by done. cbv beta iota.
  rewrite (int_given c _ _ i w Hc) by done. cbv beta iota.
  reflexivity.
Qed.

(** C4.  With the module imported at second 100 and a token constructed
    without [iat] at second 200, the token's [iat] is 100, not the
    current time 200. *)
Theorem Token_iat_is_import_time c aud :
  conversions_ok c →
  ∃ self,
    (construct (Token c aud import_time) {[ "exp" := PyInt 500 ]} later_time).1
      = Constructed self ∧
    self !! "iat" = Some (PyInt 100) ∧
    int_time later_time = PyInt 200.
Proof.
  intros Hc. eexists.
  rewrite (Token_construct_minimal c aud import_time _ later_time 500 Hc)
    by reflexivity.
  split; [reflexivity|]. split; [|reflexivity].
  rewrite add_extra_lookup_union; [reflexivity|].
  change (m_fields (Token c aud import_time)) with
    [ optional_with "iss" (str_type c) (DefaultValue (PyStr "authopie"));
      optional_with "sub" (str_type c) (DefaultValue (PyStr "subject"));
      optional_with "aud" (str_type c) (DefaultValue aud);
      required "exp" (int_type c);
      optional_with "nbf" (int_type c) (DefaultValue (PyInt 0));
      optional_with "iat" (int_type c) (DefaultValue (int_time import_time));
      optional_with "jti" (uuid_type c) (DefaultFactory uuid4);
      with_default "scopes" (list_validator (str_type c)) (PyList []) ].
  set_solver.
Qed.

Lemma Token_iat_is_import_time_witness :
  ∃ self,
    (construct (Token sample_conversions (PyStr "api") import_time)
       {[ "exp" := PyInt 500 ]} later_time).1
      = Constructed self ∧
    self !! "iat" = Some (PyInt 100) ∧
    int_time later_time = PyInt 200.
Proof.
  apply (Token_iat_is_import_time sample_conversions (PyStr "api")
           sample_conversions_ok).
Defined.

(** An omitted [jti] is the next identifier of the UUID source. *)
Lemma jti_step c aud wi w v w' :
  field_step (Token c aud wi)
    (optional_with "jti" (uuid_type c) (DefaultFactory uuid4)) None w
    = (Valid v, w') →
  v = (uuid4 w).1 ∧ w' = (uuid4 w).2.
Proof.
  intros H. apply field_step_plain in H; [|done..].
  simpl in H. by rewrite H.
Qed.

(** C5.  Two tokens constructed without [jti], the second after the
    first, have distinct [jti]s, as long as the UUID source itself does
    not repeat an identifier. *)
Theorem Token_jti_distinct c aud wi kw1 kw2 w1 w1' w2 w2' self1 self2 :
  (∀ i j, uuid_source w1 i = uuid_source w1 j → i = j) →
  kw1 !! "jti" = None →
  kw2 !! "jti" = None →
  construct (Token c aud wi) kw1 w1 = (Constructed self1, w1') →
  uuid_source w2 = uuid_source w1 →
  (uuid_drawn w1' ≤ uuid_drawn w2)%nat →
  construct (Token c aud wi) kw2 w2 = (Constructed self2, w2') →
  ∃ j1 j2,
    self1 !! "jti" = Some (PyUUID j1) ∧
    self2 !! "jti" = Some (PyUUID j2) ∧
    j1 ≠ j2.
Proof.
  intros Hfresh Hkw1 Hkw2 H1 Hsrc Hlater H2.
  apply Token_steps in H1 as (? & ? & ? & jti1 & _ & _ & _ & Hj1 & _ & _ & _ & ->).
  apply Token_steps in H2 as (? & ? & ? & jti2 & _ & _ & _ & Hj2 & _ & _ & _ & ->).
  rewrite Hkw1 in Hj1. rewrite Hkw2 in Hj2.
  apply jti_step in Hj1 as [-> ->]. apply jti_step in Hj2 as [-> ->].
  simpl in *. do 2 eexists. repeat split. rewrite Hsrc.
  intros Heq. apply Hfresh in Heq. lia.
Qed.

Lemma Token_jti_distinct_witness :
  ∃ j1 j2,
    (construct (Token sample_conversions (PyStr "api") a_world)
       {[ "exp" := PyInt 1700000900 ]} a_world).1
      = Constructed (<["jti" := PyUUID j1]> token_without_jti) ∧
    (construct (Token sample_conversions (PyStr "api") a_world)
       {[ "exp" := PyInt 1700000900 ]}
       (construct (Token sample_conversions (PyStr "api") a_world)
          {[ "exp" := PyInt 1700000900 ]} a_world).2).1
      = Constructed (<["jti" := PyUUID j2]> token_without_jti) ∧
    j1 ≠ j2.
Proof.
  destruct (Token_jti_distinct sample_conversions (PyStr "api") a_world
              {[ "exp" := PyInt 1700000900 ]} {[ "exp" := PyInt 1700000900 ]}
              a_world
              (construct (Token sample_conversions (PyStr "api") a_world)
                 {[ "exp" := PyInt 1700000900 ]} a_world).2
              (construct (Token sample_conversions (PyStr "api") a_world)
                 {[ "exp" := PyInt 1700000900 ]} a_world).2
              (construct (Token sample_conversions (PyStr "api") a_world)
                 {[ "exp" := PyInt 1700000900 ]}
                 (construct (Token sample_conversions (PyStr "api") a_world)
                    {[ "exp" := PyInt 1700000900 ]} a_world).2).2
              (<["jti" := PyUUID 0]> token_without_jti)
              (<["jti" := PyUUID 1]> token_without_jti))
    as (j1 & j2 & H1 & H2 & Hne).
  - intros i j Hij. by apply (inj N.of_nat).
  - vm_compute; reflexivity.
  - vm_compute; reflexivity.
  - vm_compute; reflexivity.
  - vm_compute; reflexivity.
  - vm_compute. lia.
  - vm_compute; reflexivity.
  - exists j1, j2. vm_compute in H1, H2. simplify_eq.
    repeat split; [vm_compute; reflexivity..|done].
Defined.

(** Construction stores an integer [exp] and [iat] as supplied (the
    [iat], when omitted, is the class default) and does not compare
    them. *)
Lemma Token_exp_iat_stored c aud wi kw w self w' e i :
  conversions_ok c →
  kw !! "exp" = Some (PyInt e) →
  kw !! "iat" = Some (PyInt i) ∨ (kw !! "iat" = None ∧ int_time wi = PyInt i) →
  construct (Token c aud wi) kw w = (Constructed self, w') →
  self !! "exp" = Some (PyInt e) ∧
  self !! "iat" = Some (PyInt i) ∧
  (exp_after_iat self ↔ (i < e)%Z).
Proof.
  intros Hc Hexp Hiat H.
  apply Token_steps in H as (exp & nbf & iat & jti & He & _ & Hi & _ & Hse & _ & Hsi & _).
  rewrite Hexp in He. apply (int_step c) in He as ->; try done.
  assert (iat = PyInt i) as ->.
  { destruct Hiat as [Hiat|[Hiat Hwi]]; rewrite Hiat in Hi.
    - by apply (int_step c) in Hi.
    - apply default_step with (d := int_time wi) in Hi; [|done..]. congruence. }
  split; [done|]. split; [done|]. split; [|by exists e, i].
  intros (e' & i' & ? & ? & ?). by simplify_eq.
Qed.

(** C6, as the spec states it, fails, whatever pydantic's conversions
    are: a token with [exp] 5 and [iat] 10 is constructed. *)
Lemma Token_exp_after_iat_counterexample :
  ¬ (∃ c, conversions_ok c ∧
     ∀ aud wi kw w self w',
       construct (Token c aud wi) kw w = (Constructed self, w') →
       exp_after_iat self).
Proof.
  intros (c & Hc & H).
  assert (∃ self w',
            construct (Token c (PyStr "api") a_world) expired_token_args a_world
            = (Constructed self, w')) as (self & w' & Hcon)
    by (do 2 eexists; apply Token_construct_exp_iat; [exact Hc|reflexivity..]).
  pose proof (H _ _ _ _ _ _ Hcon) as Hclaim.
  apply (Token_exp_iat_stored c _ _ _ _ _ _ 5 10 Hc) in Hcon
    as (_ & _ & Hiff); [|reflexivity|by left].
  apply Hiff in Hclaim. lia.
Qed.

(** C6, amended.  Construction stores an integer [exp] as supplied, and
    [iat] as supplied or, when omitted, as the class default; it does
    not compare them.  So a constructed token has [exp > iat] exactly
    when those two values do. *)
Theorem Token_exp_iat_as_supplied c aud wi kw w self w' e i :
  conversions_ok c →
  kw !! "exp" = Some (PyInt e) →
  kw !! "iat" = Some (PyInt i) ∨ (kw !! "iat" = None ∧ int_time wi = PyInt i) →
  construct (Token c aud wi) kw w = (Constructed self, w') →
  self !! "exp" = Some (PyInt e) ∧
  self !! "iat" = Some (PyInt i) ∧
  (exp_after_iat self ↔ (i < e)%Z).
Proof. apply Token_exp_iat_stored. Qed.

Lemma Token_exp_iat_as_supplied_witness :
  ∃ self w',
    construct (Token sample_conversions (PyStr "api") a_world)
      expired_token_args a_world
      = (Constructed self, w') ∧
    self !! "exp" = Some (PyInt 5) ∧
    self !! "iat" = Some (PyInt 10) ∧
    (exp_after_iat self ↔ (10 < 5)%Z).
Proof.
  do 2 eexists. split; [vm_compute; reflexivity|].
  eapply (Token_exp_iat_as_supplied sample_conversions (PyStr "api") a_world
            expired_token_args a_world _ _ 5 10 sample_conversions_ok).
  - vm_compute; reflexivity.
  - left. vm_compute; reflexivity.
  - vm_compute; reflexivity.
Defined.

(** ** JWK *)

(** C7.  A constructed JWK has exactly the attributes [kid], [kty],
    [alg], [use], [n], [e], [x5c] and [x5t], so nothing of a private
    key, and [kty], [alg], [use] and [e] default to [RSA], [RS256],
    [sig] and [AQAB]. *)
Theorem JWK_public_fields_only c kw w self w' :
  construct (JWK c) kw w = (Constructed self, w') →
  dom self = jwk_field_names ∧
  self !! "private_key" = None ∧
  (kw !! "kty" = None → self !! "kty" = Some (PyStr "RSA")) ∧
  (kw !! "alg" = None → self !! "alg" = Some (PyStr "RS256")) ∧
  (kw !! "use" = None → self !! "use" = Some (PyStr "sig")) ∧
  (kw !! "e" = None → self !! "e" = Some (PyStr "AQAB")).
Proof.
  intros H. apply construct_inv in H as (vals & Hf & Hr).
  apply plain_model_self in Hr; [subst self|done..].
  change (m_fields (JWK c)) with
    [ required "kid" (str_type c);
      with_default "kty" (str_type c) (PyStr "RSA");
      with_default "alg" (str_type c) (PyStr "RS256");
      with_default "use" (str_type c) (PyStr "sig");
      required "n" (str_type c);
      with_default "e" (str_type c) (PyStr "AQAB");
      optional "x5c" (str_type c);
      optional "x5t" (str_type c) ] in Hf.
  do 8 peel Hf.
  apply validate_fields_nil in Hf as [-> ->].
  split; [|split].
  - rewrite !dom_insert_L, dom_empty_L. unfold jwk_field_names. set_solver.
  - by simplify_map_eq.
  - repeat split; intros Hkw;
      match goal with
      | H : field_step _ _ (kw !! ?k) _ = _ |- _ !! ?k = _ =>
          rewrite Hkw in H; apply field_step_plain in H; [|done..];
          simpl in H; destruct H as [-> _]; by simplify_map_eq
      end.
Qed.

Lemma JWK_public_fields_only_witness :
  ∃ self,
    construct (JWK sample_conversions) jwk_args a_world
      = (Constructed self, a_world) ∧
    dom self = jwk_field_names ∧
    self !! "private_key" = None ∧
    self !! "kty" = Some (PyStr "RSA") ∧
    self !! "alg" = Some (PyStr "RS256") ∧
    self !! "use" = Some (PyStr "sig") ∧
    self !! "e" = Some (PyStr "AQAB").
Proof.
  eexists. split; [vm_compute; reflexivity|].
  destruct (JWK_public_fields_only sample_conversions jwk_args a_world _ a_world
              eq_refl)
    as (Hdom & Hpriv & Hkty & Halg & Huse & He).
  split; [exact Hdom|]. split; [exact Hpriv|].
  split; [apply Hkty|split; [apply Halg|split; [apply Huse|apply He]]];
    vm_compute; reflexivity.
Defined.

(** ** RefreshToken *)

(** A refresh token for which a UUID, an instance of [UserInDB] and
    an integer are passed is constructed. *)
Lemma RefreshToken_construct c (kw : gmap string pyval) w u attrs e :
  conversions_ok c →
  kw !! "token" = Some (PyUUID u) →
  kw !! "user" = Some (PyModel "UserInDB" attrs) →
  kw !! "exp" = Some (PyInt e) →
  construct (RefreshToken c) kw w
    = (Constructed {[ "token" := PyUUID u; "user" := PyModel "UserInDB" attrs;
                      "exp" := PyInt e ]}, w).
Proof.
  intros Hc Ht Hu He.
  fields_of (RefreshToken c)
    [ required "token" (uuid_type c);
      required "user" (model_validator c (UserInDB c));
      required "exp" (int_type c) ].
  rewrite Ht, Hu, He.
  rewrite (field_step_given _ _ (PyUUID u)) by done.
  unfold uuid_type at 1 2, pure. cbn [d_type required fst snd].
  rewrite (uuid_id c Hc). cbv beta iota. cbn [classify].
  rewrite (field_step_given _ _ (PyModel "UserInDB" attrs)) by done.
  cbn [d_type required].
  rewrite (model_id c Hc (UserInDB c) w "UserInDB" attrs)
    by apply (issubclass_refl c Hc).
  cbn [fst snd classify]. cbv beta iota.
  rewrite (int_given c _ _ e w Hc) by done. cbv beta iota.
  reflexivity.
Qed.

(** What a constructed refresh token consists of. *)
Lemma RefreshToken_inv c kw w self w' :
  conversions_ok c →
  construct (RefreshToken c) kw w = (Constructed self, w') →
  dom self = {[ "token"; "user"; "exp" ]} ∧
  self !! "consumed" = None ∧
  (∃ u, self !! "token" = Some (PyUUID u)) ∧
  (∃ cls attrs, self !! "user" = Some (PyModel cls attrs) ∧
                issubclass c cls "UserInDB" = true) ∧
  (∃ e, self !! "exp" = Some (PyInt e)).
Proof.
  intros Hc H. apply construct_inv in H as (vals & Hf & Hr).
  apply plain_model_self in Hr; [subst self|done..].
  change (m_fields (RefreshToken c)) with
    [ required "token" (uuid_type c);
      required "user" (model_validator c (UserInDB c));
      required "exp" (int_type c) ] in Hf.
  do 3 peel Hf.
  apply validate_fields_nil in Hf as [-> ->].
  apply field_step_plain in Hstep; [|done..].
  apply field_step_plain in Hstep0; [|done..].
  apply field_step_plain in Hstep1; [|done..].
  split; [|split; [|split; [|split]]].
  - rewrite !dom_insert_L, dom_empty_L. set_solver.
  - by simplify_map_eq.
  - destruct (kw !! "token") as [x|]; [|done].
    assert (uuid_validator c x = Ok v) as Hx
      by (destruct x; try (by destruct Hstep); by apply pure_Ok in Hstep as [? _]).
    apply (uuid_out c Hc) in Hx as [u ->]. exists u. by simplify_map_eq.
  - destruct (kw !! "user") as [x|]; [|done].
    assert (model_validator c (UserInDB c) w0 x = (Ok v0, w1)) as Hx
      by (by destruct x; try destruct Hstep0).
    apply (model_out c Hc) in Hx as (cls & attrs & -> & Hsub).
    exists cls, attrs. by simplify_map_eq.
  - destruct (kw !! "exp") as [x|]; [|done].
    assert (int_validator c x = Ok v1) as Hx
      by (destruct x; try (by destruct Hstep1); by apply pure_Ok in Hstep1 as [? _]).
    apply (int_out c Hc) in Hx as [e ->]. exists e. by simplify_map_eq.
Qed.

(** C2, as the spec states it, fails, whatever pydantic's conversions
    are: a refresh token has no [consumed] attribute, even when the
    caller passes one. *)
Lemma RefreshToken_consumed_counterexample :
  ¬ (∃ c, conversions_ok c ∧
     ∀ kw w self w',
       construct (RefreshToken c) kw w = (Constructed self, w') →
       is_Some (self !! "consumed")).
Proof.
  intros (c & Hc & H).
  assert (∃ self w',
            construct (RefreshToken c) refresh_token_args a_world
            = (Constructed self, w')) as (self & w' & Hcon)
    by (do 2 eexists; apply RefreshToken_construct; [exact Hc|reflexivity..]).
  pose proof (H _ _ _ _ Hcon) as [v Hv].
  apply (RefreshToken_inv c _ _ _ _ Hc) in Hcon as (_ & Hnone & _).
  congruence.
Qed.

(** C2, amended.  A refresh token has exactly three attributes: the
    token id, a UUID; the owning user, an instance of [UserInDB]; and
    the expiry, an integer.  It carries no consumption state. *)
Theorem RefreshToken_attributes c kw w self w' :
  conversions_ok c →
  construct (RefreshToken c) kw w = (Constructed self, w') →
  dom self = {[ "token"; "user"; "exp" ]} ∧
  self !! "consumed" = None ∧
  (∃ u, self !! "token" = Some (PyUUID u)) ∧
  (∃ cls attrs, self !! "user" = Some (PyModel cls attrs) ∧
                issubclass c cls "UserInDB" = true) ∧
  (∃ e, self !! "exp" = Some (PyInt e)).
Proof. apply RefreshToken_inv. Qed.

Lemma RefreshToken_attributes_witness :
  ∃ self,
    construct (RefreshToken sample_conversions) refresh_token_args a_world
      = (Constructed self, a_world) ∧
    dom self = {[ "token"; "user"; "exp" ]} ∧
    self !! "consumed" = None ∧
    (∃ u, self !! "token" = Some (PyUUID u)) ∧
    (∃ cls attrs, self !! "user" = Some (PyModel cls attrs) ∧
                  String.eqb cls "UserInDB" = true) ∧
    (∃ e, self !! "exp" = Some (PyInt e)).
Proof.
  eexists. split; [vm_compute; reflexivity|].
  apply (RefreshToken_attributes sample_conversions refresh_token_args a_world
           _ a_world sample_conversions_ok).
  vm_compute; reflexivity.
Defined.

(** ** UserInUpdate *)

(** With no username, no password and an empty list of roles the root
    validator refuses the update. *)
Lemma check_for_no_data_refuses (values : gmap string pyval) :
  values !! "username" = Some PyNone →
  values !! "password" = Some PyNone →
  values !! "roles" = Some (PyList []) →
  check_for_no_data values = Raise (ValueError "No data received").
Proof.
  intros Hu Hp Hr. unfold check_for_no_data, getitem. by rewrite Hu, Hp, Hr.
Qed.

(** When the roles are a list and one of the three carries data, it
    returns the values as they are. *)
Lemma check_for_no_data_passes (values : gmap string pyval) u p l :
  values !! "username" = Some u →
  values !! "password" = Some p →
  values !! "roles" = Some (PyList l) →
  u ≠ PyNone ∨ p ≠ PyNone ∨ l ≠ [] →
  check_for_no_data values = Ok values.
Proof.
  intros Hu Hp Hr Hdata. unfold check_for_no_data, getitem.
  rewrite Hu, Hp, Hr. simpl.
  destruct Hdata as [H|[H|H]]; by destruct u, p, l.
Qed.

(** When the roles are [None], it fails on taking their length,
    whatever the other two are. *)
Lemma check_for_no_data_null_roles (values : gmap string pyval) u p :
  values !! "username" = Some u →
  values !! "password" = Some p →
  values !! "roles" = Some PyNone →
  check_for_no_data values
    = Raise (TypeError "object of type 'NoneType' has no len()").
Proof.
  intros Hu Hp Hr. unfold check_for_no_data, getitem. by rewrite Hu, Hp, Hr.
Qed.

(** C9.  An update that carries a password and has [None] for the roles
    is not constructed: the root validator raises a [TypeError], which
    is reported as a validation error. *)
Theorem UserInUpdate_null_roles_rejected c w :
  conversions_ok c →
  construct (UserInUpdate c) null_roles_update w
    = (ValidationError
         [("__root__", TypeError "object of type 'NoneType' has no len()")], w).
Proof.
  intros Hc.
  fields_of (UserInUpdate c)
    [ optional "username" (email_type c);
      optional "password" (str_type c);
      optional_with "roles" (list_validator (str_type c))
        (DefaultValue (PyList [])) ].
  change (null_roles_update !! "username") with (@None pyval).
  change (null_roles_update !! "password") with (Some (PyStr "correct horse")).
  change (null_roles_update !! "roles") with (Some PyNone).
  erewrite field_step_omitted by done. cbv beta iota.
  rewrite (str_given c _ _ _ w Hc) by done. cbv beta iota.
  reflexivity.
Qed.

Lemma UserInUpdate_null_roles_rejected_witness :
  construct (UserInUpdate sample_conversions) null_roles_update a_world
    = (ValidationError
         [("__root__", TypeError "object of type 'NoneType' has no len()")],
       a_world).
Proof.
  apply (UserInUpdate_null_roles_rejected sample_conversions a_world
           sample_conversions_ok).
Defined.

(** * Further properties of the schemas *)

(** ** Scopes as a string and as a list *)

Lemma str_split_nonempty c s : str_split c s ≠ [].
Proof.
  destruct s as [|a s]; simpl; [done|].
  destruct (Ascii.eqb a c); [done|]. by destruct (str_split c s).
Qed.

Lemma str_join_cons_char c a piece rest :
  str_join (String c "") (String a piece :: rest)
  = String a (str_join (String c "") (piece :: rest)).
Proof. by destruct rest. Qed.

(** Splitting at a character and joining with it again gives the
    string back. *)
Lemma str_join_split c s : str_join (String c "") (str_split c s) = s.
Proof.
  induction s as [|a s IH]; simpl; [done|].
  destruct (Ascii.eqb_spec a c) as [->|Hne].
  - pose proof (str_split_nonempty c s) as Hn.
    destruct (str_split c s) as [|piece rest] eqn:E; [done|].
    change (str_join (String c "") ("" :: piece :: rest))
      with (String c (str_join (String c "") (piece :: rest))).
    by rewrite IH.
  - pose proof (str_split_nonempty c s) as Hn.
    destruct (str_split c s) as [|piece rest] eqn:E; [done|].
    rewrite str_join_cons_char. by rewrite IH.
Qed.

(** Splitting a string that has the separator in it splits both
    sides. *)
Lemma str_split_app c x s :
  str_split c (x +:+ String c s) = (str_split c x ++ str_split c s)%list.
Proof.
  induction x as [|a x IH]; simpl.
  - by rewrite Ascii.eqb_refl.
  - destruct (Ascii.eqb a c); simpl; [by rewrite IH|].
    rewrite IH. pose proof (str_split_nonempty c x) as Hn.
    by destruct (str_split c x).
Qed.

Lemma str_split_join_concat c l :
  l ≠ [] →
  str_split c (str_join (String c "") l) = concat (str_split c <$> l).
Proof.
  intros Hne. induction l as [|x l IH]; [done|].
  destruct l as [|y l].
  - simpl. by rewrite app_nil_r.
  - change (str_join (String c "") (x :: y :: l))
      with (x +:+ String c (str_join (String c "") (y :: l))).
    rewrite str_split_app, IH by done. done.
Qed.

Lemma str_split_pieces c s :
  Forall (λ p, str_contains c p = false) (str_split c s).
Proof.
  induction s as [|a s IH]; simpl; [by repeat constructor|].
  destruct (Ascii.eqb a c) eqn:E; [by constructor|].
  destruct (str_split c s) as [|piece rest]; [by repeat constructor; simpl; rewrite E|].
  inversion_clear IH as [|?? Hp Hr]. constructor; [|done]. simpl. by rewrite E.
Qed.

Lemma str_split_length c s : length (str_split c s) = S (str_count c s).
Proof.
  induction s as [|a s IH]; simpl; [done|].
  destruct (Ascii.eqb a c); simpl; [by rewrite IH|].
  pose proof (str_split_nonempty c s) as Hn.
  destruct (str_split c s) as [|piece rest]; [done|]. simpl in *. done.
Qed.

(** X1.  For a role whose scopes are any string, passing the result of
    [get_scopes_as_list] to [set_scopes_from_list] returns that string
    and leaves the role as it was. *)
Theorem scopes_get_then_set (self : gmap string pyval) (s : string) :
  self !! "scopes" = Some (PyStr s) →
  ∃ l,
    get_scopes_as_list self = Ok (PyList l) ∧
    set_scopes_from_list self l = Ok (PyStr s, self).
Proof.
  intros Hs. unfold get_scopes_as_list, set_scopes_from_list. rewrite Hs.
  eexists. split; [done|].
  rewrite str_items_strs. simpl. rewrite str_join_split.
  by rewrite insert_id.
Qed.

Lemma scopes_get_then_set_witness :
  ∃ l,
    get_scopes_as_list a_role = Ok (PyList l) ∧
    set_scopes_from_list a_role l = Ok (PyStr "read  write:all", a_role).
Proof. apply (scopes_get_then_set a_role "read  write:all"). reflexivity. Defined.

(** X2.  Whatever the scopes stored with [set_scopes_from_list] (as
    long as there is one), [get_scopes_as_list] returns the pieces of
    each of them, in order: a scope with spaces in it comes back as
    several scopes. *)
Theorem scopes_set_then_get (self : gmap string pyval) (l : list string) :
  l ≠ [] →
  ∃ self',
    set_scopes_from_list self (PyStr <$> l)
      = Ok (PyStr (str_join " " l), self') ∧
    get_scopes_as_list self'
      = Ok (PyList (PyStr <$> concat (str_split " " <$> l))).
Proof.
  intros Hne. eexists. split.
  - unfold set_scopes_from_list. by rewrite str_items_strs.
  - unfold get_scopes_as_list. rewrite lookup_insert_eq.
    by rewrite (str_split_join_concat " " l).
Qed.

Lemma scopes_set_then_get_witness :
  ∃ self',
    set_scopes_from_list a_role [PyStr "read write"; PyStr "admin"]
      = Ok (PyStr "read write admin", self') ∧
    get_scopes_as_list self'
      = Ok (PyList [PyStr "read"; PyStr "write"; PyStr "admin"]).
Proof. by apply (scopes_set_then_get a_role ["read write"; "admin"]). Defined.

(** X3.  For a role whose scopes are a string, [get_scopes_as_list]
    returns one scope more than the string has spaces, so at least
    one, and none of them contains a space. *)
Theorem scopes_list_shape (self : gmap string pyval) (s : string) :
  self !! "scopes" = Some (PyStr s) →
  ∃ l,
    get_scopes_as_list self = Ok (PyList (PyStr <$> l)) ∧
    length l = S (str_count " " s) ∧
    Forall (λ p, str_contains " " p = false) l.
Proof.
  intros Hs. exists (str_split " " s). unfold get_scopes_as_list. rewrite Hs.
  split; [done|]. split; [apply str_split_length|apply str_split_pieces].
Qed.

Lemma scopes_list_shape_witness :
  ∃ l,
    get_scopes_as_list a_role = Ok (PyList (PyStr <$> l)) ∧
    length l = 3 ∧
    Forall (λ p, str_contains " " p = false) l.
Proof. apply (scopes_list_shape a_role "read  write:all"). reflexivity. Defined.

(** ** Constructing roles *)

(** X4.  Every string is accepted as the scopes of a role and stored
    as it is, by [RoleBase], [RoleIn] and [RoleOut] alike; keyword
    arguments other than [name] and [scopes] are dropped. *)
Theorem Role_accepts_every_scopes_string c (kw : gmap string pyval) w n s :
  conversions_ok c →
  kw !! "name" = Some (PyStr n) →
  kw !! "scopes" = Some (PyStr s) →
  let self : gmap string pyval := {[ "name" := PyStr n; "scopes" := PyStr s ]} in
  construct (RoleBase c) kw w = (Constructed self, w) ∧
  construct (RoleIn c) kw w = (Constructed self, w) ∧
  construct (RoleOut c) kw w = (Constructed self, w).
Proof. apply Role_construct. Qed.

Lemma Role_accepts_every_scopes_string_witness :
  construct (RoleBase sample_conversions) role_args a_world
    = (Constructed {[ "name" := PyStr "editor"; "scopes" := PyStr "read read write" ]},
       a_world) ∧
  construct (RoleIn sample_conversions) role_args a_world
    = (Constructed {[ "name" := PyStr "editor"; "scopes" := PyStr "read read write" ]},
       a_world) ∧
  construct (RoleOut sample_conversions) role_args a_world
    = (Constructed {[ "name" := PyStr "editor"; "scopes" := PyStr "read read write" ]},
       a_world).
Proof.
  apply (Role_accepts_every_scopes_string sample_conversions role_args a_world
           "editor" "read read write" sample_conversions_ok);
    reflexivity.
Defined.

(** X5.  A role constructed without scopes has the empty string as its
    scopes, and [get_scopes_as_list] then returns one scope, the empty
    string, rather than no scope. *)
Theorem Role_default_scopes c (kw : gmap string pyval) w n :
  conversions_ok c →
  kw !! "name" = Some (PyStr n) →
  kw !! "scopes" = None →
  ∃ self,
    construct (RoleBase c) kw w = (Constructed self, w) ∧
    self !! "scopes" = Some (PyStr "") ∧
    get_scopes_as_list self = Ok (PyList [PyStr ""]).
Proof.
  intros Hc Hn Hs.
  exists {[ "name" := PyStr n; "scopes" := PyStr "" ]}. split; [|done].
  fields_of (RoleBase c)
    [ required "name" (str_type c);
      optional_with "scopes" (str_type c) (DefaultValue (PyStr "")) ].
  rewrite Hn, Hs, Role_name_step by done. cbv beta iota.
  rewrite Role_scopes_default by done. reflexivity.
Qed.

Lemma Role_default_scopes_witness :
  ∃ self,
    construct (RoleBase sample_conversions) unnamed_role_args a_world
      = (Constructed self, a_world) ∧
    self !! "scopes" = Some (PyStr "") ∧
    get_scopes_as_list self = Ok (PyList [PyStr ""]).
Proof.
  apply (Role_default_scopes sample_conversions unnamed_role_args a_world "guest"
           sample_conversions_ok);
    reflexivity.
Defined.

(** Whatever is passed as the name of a role, the turn of the loop for
    it ends in a value or in an error that is reported. *)
Lemma Role_name_step_any c input w :
  conversions_ok c →
  ∃ r, field_step (RoleBase c) (required "name" (str_type c)) input w = (r, w) ∧
       ∀ e, r ≠ Abort e.
Proof.
  intros Hc. destruct input as [x|]; [|by eexists].
  assert (x = PyNone ∨ x ≠ PyNone) as [->|Hx]
    by (destruct x; (by left) || (by right)); [by eexists|].
  rewrite field_step_given by done.
  unfold str_type, pure. simpl.
  destruct (str_validator c x) as [v|e] eqn:E; simpl; [by eexists|].
  rewrite (str_caught c Hc _ _ E). by eexists.
Qed.

(** X6.  Passing [None] as the scopes of a role, which the annotation
    [Optional[str]] allows, ends the constructor with the
    [AttributeError] of [None.split]: it is raised by the validator
    and is not turned into a validation error. *)
Theorem Role_null_scopes_raises c (kw : gmap string pyval) w :
  conversions_ok c →
  kw !! "scopes" = Some PyNone →
  ∃ msg, construct (RoleBase c) kw w = (Uncaught (AttributeError msg), w).
Proof.
  intros Hc Hs. eexists.
  fields_of (RoleBase c)
    [ required "name" (str_type c);
      optional_with "scopes" (str_type c) (DefaultValue (PyStr "")) ].
  rewrite Hs.
  destruct (Role_name_step_any c (kw !! "name") w Hc) as (r & -> & Hr).
  destruct r as [v|e|e]; [reflexivity..|by destruct (Hr e)].
Qed.

Lemma Role_null_scopes_raises_witness :
  ∃ msg, construct (RoleBase sample_conversions) null_scopes_args a_world
         = (Uncaught (AttributeError msg), a_world).
Proof.
  apply (Role_null_scopes_raises sample_conversions null_scopes_args a_world
           sample_conversions_ok).
  reflexivity.
Defined.

(** X7.  A [RoleInDB] constructed without an id takes the next
    identifier of the UUID source, which is thereby used up; an id
    that is supplied is kept and the source is left alone. *)
Theorem RoleInDB_id c kw w self w' :
  conversions_ok c →
  construct (RoleInDB c) kw w = (Constructed self, w') →
  (kw !! "id" = None → self !! "id" = Some (uuid4 w).1 ∧ w' = (uuid4 w).2) ∧
  (∀ u, kw !! "id" = Some (PyUUID u) → self !! "id" = Some (PyUUID u) ∧ w' = w).
Proof.
  intros Hc H. apply construct_inv in H as (vals & Hf & Hr).
  apply plain_model_self in Hr; [subst self|done..].
  change (m_fields (RoleInDB c)) with
    [ required "name" (str_type c);
      optional_with "scopes" (str_type c) (DefaultValue (PyStr ""));
      {| d_name := "id"; d_type := uuid_type c; d_allow_none := false;
         d_default := DefaultFactory uuid4 |} ] in Hf.
  do 3 peel Hf.
  apply validate_fields_nil in Hf as [-> ->].
  same_world Hstep. same_world Hstep0.
  rewrite lookup_insert_eq.
  apply field_step_plain in Hstep1; [|done..].
  split.
  - intros Hid. rewrite Hid in Hstep1. simpl in Hstep1. by rewrite Hstep1.
  - intros u Hid. rewrite Hid in Hstep1. simpl in Hstep1.
    apply pure_Ok in Hstep1 as [Hu ->]. rewrite (uuid_id c Hc) in Hu.
    by simplify_eq.
Qed.

Lemma RoleInDB_id_witness :
  (∃ self,
     construct (RoleInDB sample_conversions) unnamed_role_args used_world
       = (Constructed self, (uuid4 used_world).2) ∧
     self !! "id" = Some (PyUUID 7)) ∧
  (∃ self,
     construct (RoleInDB sample_conversions) role_with_id_args used_world
       = (Constructed self, used_world) ∧
     self !! "id" = Some (PyUUID 99)).
Proof.
  split; eexists; (split; [vm_compute; reflexivity|]).
  - destruct (RoleInDB_id sample_conversions unnamed_role_args used_world _
                (uuid4 used_world).2 sample_conversions_ok eq_refl)
      as [Hnone _].
    apply Hnone. vm_compute; reflexivity.
  - destruct (RoleInDB_id sample_conversions role_with_id_args used_world _
                used_world sample_conversions_ok eq_refl)
      as [_ Hsome].
    apply (Hsome 99%N). vm_compute; reflexivity.
Defined.

(** ** Updating a user *)

Lemma validate_items_strs c ls w :
  conversions_ok c →
  validate_items (str_type c) (PyStr <$> ls) w = (Ok (PyStr <$> ls), w).
Proof.
  intros Hc. induction ls as [|x ls IH]; [done|].
  rewrite fmap_cons. cbn [validate_items validate_item].
  unfold str_type at 1, pure. rewrite (str_id c Hc), IH. done.
Qed.

Lemma check_for_no_data_Ok (values self : gmap string pyval) :
  check_for_no_data values = Ok self →
  self = values ∧
  ∃ u p r n,
    values !! "username" = Some u ∧ values !! "password" = Some p ∧
    values !! "roles" = Some r ∧ py_len r = Ok n ∧
    (u ≠ PyNone ∨ p ≠ PyNone ∨ n ≠ 0%Z).
Proof.
  unfold check_for_no_data, getitem.
  destruct (values !! "username") as [u|]; [|done].
  destruct (values !! "password") as [p|]; [|done].
  destruct (values !! "roles") as [r|]; [|done].
  simpl. destruct (py_len r) as [n|e] eqn:Hlen; [|done]. simpl.
  destruct (is_none u) eqn:Eu, (is_none p) eqn:Ep,
    (bool_decide (n = 0%Z)) eqn:En; simpl; try done;
    intros H; simplify_eq; (split; [done|]); exists u, p, r, n;
    do 4 (split; [done|]).
  all: try (apply bool_decide_eq_false in En; by right; right).
  all: try (right; left; by destruct p).
  all: left; by destruct u.
Qed.

(** X8.  No constructed [UserInUpdate] is empty: it has a username, a
    password or at least one role; its roles are a list, never
    [None]; and it has no attributes besides these three. *)
Theorem UserInUpdate_carries_data c kw w self w' :
  construct (UserInUpdate c) kw w = (Constructed self, w') →
  ∃ u p l,
    self !! "username" = Some u ∧ self !! "password" = Some p ∧
    self !! "roles" = Some (PyList l) ∧
    (u ≠ PyNone ∨ p ≠ PyNone ∨ l ≠ []) ∧
    dom self = {[ "username"; "password"; "roles" ]}.
Proof.
  intros H. apply construct_inv in H as (vals & Hf & Hr).
  change (m_root (UserInUpdate c)) with [(true, check_for_no_data)] in Hr.
  unfold add_extra in Hr.
  change (m_extra (UserInUpdate c)) with ExtraIgnore in Hr.
  cbn [run_root_validators andb negb] in Hr.
  rewrite bool_decide_eq_true_2 in Hr by done. simpl in Hr.
  destruct (check_for_no_data vals) as [self'|e] eqn:Hchk;
    [|destruct (caught e); simplify_eq].
  simplify_eq.
  apply check_for_no_data_Ok in Hchk
    as (-> & u & p & r & n & Hu & Hp & Hr & Hn & Hdata).
  change (m_fields (UserInUpdate c)) with
    [ optional "username" (email_type c);
      optional "password" (str_type c);
      optional_with "roles" (list_validator (str_type c))
        (DefaultValue (PyList [])) ] in Hf.
  do 3 peel Hf.
  apply validate_fields_nil in Hf as [-> ->].
  apply field_step_plain in Hstep1; [|done..].
  rewrite lookup_insert_eq in Hr. simplify_eq.
  assert (∃ l, r = PyList l) as [l ->].
  { destruct (kw !! "roles") as [x|]; simpl in Hstep1;
      [|destruct Hstep1 as [-> _]; by eexists].
    destruct x; try (by apply list_validator_Ok in Hstep1).
    by destruct Hstep1 as (_ & -> & _). }
  exists u, p, l. do 3 (split; [done|]). split.
  - simpl in Hn. simplify_eq. destruct Hdata as [?|[?|Hl]]; [by left|by right; left|].
    right; right. by destruct l.
  - rewrite !dom_insert_L, dom_empty_L. set_solver.
Qed.

Lemma UserInUpdate_carries_data_witness :
  ∃ u p l,
    password_update_result !! "username" = Some u ∧
    password_update_result !! "password" = Some p ∧
    password_update_result !! "roles" = Some (PyList l) ∧
    (u ≠ PyNone ∨ p ≠ PyNone ∨ l ≠ []) ∧
    dom password_update_result = {[ "username"; "password"; "roles" ]}.
Proof.
  apply (UserInUpdate_carries_data sample_conversions password_update a_world
           password_update_result a_world).
  vm_compute; reflexivity.
Defined.

(** X9.  An update without a username (absent or [None]), without a
    password and without roles (absent or the empty list) is refused
    with the single error [No data received], whatever else is
    passed. *)
Theorem UserInUpdate_no_data c (kw : gmap string pyval) w :
  kw !! "username" = None ∨ kw !! "username" = Some PyNone →
  kw !! "password" = None ∨ kw !! "password" = Some PyNone →
  kw !! "roles" = None ∨ kw !! "roles" = Some (PyList []) →
  construct (UserInUpdate c) kw w
    = (ValidationError [("__root__", ValueError "No data received")], w).
Proof.
  intros Hu Hp Hr.
  fields_of (UserInUpdate c)
    [ optional "username" (email_type c);
      optional "password" (str_type c);
      optional_with "roles" (list_validator (str_type c))
        (DefaultValue (PyList [])) ].
  destruct Hu as [-> | ->], Hp as [-> | ->], Hr as [-> | ->]; reflexivity.
Qed.

Lemma UserInUpdate_no_data_witness :
  construct (UserInUpdate sample_conversions) empty_update a_world
    = (ValidationError [("__root__", ValueError "No data received")], a_world).
Proof.
  apply (UserInUpdate_no_data sample_conversions empty_update a_world);
    [right|left|right]; reflexivity.
Defined.

Lemma UserInUpdate_construct c (kw : gmap string pyval) w u p ls :
  conversions_ok c →
  (kw !! "username" = None ∨ kw !! "username" = Some PyNone) ∧ u = PyNone
  ∨ (∃ a a', kw !! "username" = Some (PyStr a) ∧
             validate_email c a = Some a' ∧ u = PyStr a') →
  (kw !! "password" = None ∨ kw !! "password" = Some PyNone) ∧ p = PyNone
  ∨ (∃ s, kw !! "password" = Some (PyStr s) ∧ p = PyStr s) →
  kw !! "roles" = None ∧ ls = [] ∨ kw !! "roles" = Some (PyList (PyStr <$> ls)) →
  u ≠ PyNone ∨ p ≠ PyNone ∨ ls ≠ [] →
  construct (UserInUpdate c) kw w
    = (Constructed {[ "username" := u; "password" := p;
                      "roles" := PyList (PyStr <$> ls) ]}, w).
Proof.
  intros Hc Hu Hp Hr Hdata.
  assert (field_step (UserInUpdate c) (optional "username" (email_type c))
            (kw !! "username") w = (Valid u, w)) as Su.
  { destruct Hu as [[[-> | ->] ->]|(a & a' & -> & Ha & ->)]; try done.
    rewrite field_step_given by done.
    unfold email_type, pure, email_validator. simpl.
    rewrite (str_id c Hc). simpl. by rewrite Ha. }
  assert (field_step (UserInUpdate c) (optional "password" (str_type c))
            (kw !! "password") w = (Valid p, w)) as Sp.
  { destruct Hp as [[[-> | ->] ->]|(s & -> & ->)]; try done.
    by apply (str_given c). }
  assert (field_step (UserInUpdate c)
            (optional_with "roles" (list_validator (str_type c))
               (DefaultValue (PyList [])))
            (kw !! "roles") w = (Valid (PyList (PyStr <$> ls)), w)) as Sr.
  { destruct Hr as [[-> ->] | ->]; [done|].
    rewrite field_step_given by done. simpl.
    by rewrite (validate_items_strs c ls w Hc). }
  fields_of (UserInUpdate c)
    [ optional "username" (email_type c);
      optional "password" (str_type c);
      optional_with "roles" (list_validator (str_type c))
        (DefaultValue (PyList [])) ].
  rewrite Su. cbv beta iota. rewrite Sp. cbv beta iota. rewrite Sr.
  cbv beta iota.
  change (m_root (UserInUpdate c)) with [(true, check_for_no_data)].
  unfold add_extra.
  change (m_extra (UserInUpdate c)) with ExtraIgnore.
  cbn [run_root_validators andb negb].
  rewrite bool_decide_eq_true_2 by done. simpl.
  rewrite (check_for_no_data_passes _ u p (PyStr <$> ls)).
  - reflexivity.
  - by simplify_map_eq.
  - by simplify_map_eq.
  - by simplify_map_eq.
  - destruct Hdata as [?|[?|?]]; [by left|by right; left|].
    right; right. by destruct ls.
Qed.

(** X10.  An update is constructed when its roles are absent or a list
    of strings and it has a password or a role (with or without a
    valid username).  The object holds the password and the roles as
    passed, [None] for what is absent, and as username the address in
    the form the check of [EmailStr] returns. *)
Theorem UserInUpdate_accepts c (kw : gmap string pyval) w u p ls :
  conversions_ok c →
  (kw !! "username" = None ∨ kw !! "username" = Some PyNone) ∧ u = PyNone
  ∨ (∃ a a', kw !! "username" = Some (PyStr a) ∧
             validate_email c a = Some a' ∧ u = PyStr a') →
  (kw !! "password" = None ∨ kw !! "password" = Some PyNone) ∧ p = PyNone
  ∨ (∃ s, kw !! "password" = Some (PyStr s) ∧ p = PyStr s) →
  kw !! "roles" = None ∧ ls = [] ∨ kw !! "roles" = Some (PyList (PyStr <$> ls)) →
  u ≠ PyNone ∨ p ≠ PyNone ∨ ls ≠ [] →
  construct (UserInUpdate c) kw w
    = (Constructed {[ "username" := u; "password" := p;
                      "roles" := PyList (PyStr <$> ls) ]}, w).
Proof. apply UserInUpdate_construct. Qed.

Lemma UserInUpdate_accepts_witness :
  construct (UserInUpdate sample_conversions) full_update a_world
    = (Constructed {[ "username" := PyStr "Ada@Example.ORG"; "password" := PyNone;
                      "roles" := PyList [PyStr "editor"; PyStr "admin"] ]}, a_world).
Proof.
  apply (UserInUpdate_accepts sample_conversions full_update a_world
           (PyStr "Ada@Example.ORG") PyNone ["editor"; "admin"]
           sample_conversions_ok).
  - right. exists "Ada@Example.ORG", "Ada@Example.ORG". by vm_compute.
  - left. split; [left|]; reflexivity.
  - right. reflexivity.
  - left. discriminate.
Defined.

(** ** More on tokens *)

(** A constructed token is the values of its eight fields together
    with the keyword arguments that name no field. *)
Lemma Token_inv c aud wi kw w self w' :
  construct (Token c aud wi) kw w = (Constructed self, w') →
  ∃ iss sub au exp nbf iat jti scopes,
    self = extra_items (Token c aud wi) kw ∪
             (<["scopes" := scopes]> (<["jti" := jti]> (<["iat" := iat]>
              (<["nbf" := nbf]> (<["exp" := exp]> (<["aud" := au]>
              (<["sub" := sub]> (<["iss" := iss]> ∅)))))))) ∧
    field_step (Token c aud wi)
      (optional_with "iss" (str_type c) (DefaultValue (PyStr "authopie")))
      (kw !! "iss") w = (Valid iss, w) ∧
    field_step (Token c aud wi)
      (optional_with "sub" (str_type c) (DefaultValue (PyStr "subject")))
      (kw !! "sub") w = (Valid sub, w) ∧
    field_step (Token c aud wi)
      (optional_with "aud" (str_type c) (DefaultValue aud))
      (kw !! "aud") w = (Valid au, w) ∧
    field_step (Token c aud wi)
      (with_default "scopes" (list_validator (str_type c)) (PyList []))
      (kw !! "scopes") w' = (Valid scopes, w').
Proof.
  intros H. apply construct_inv in H as (vals & Hf & Hr).
  apply no_root_self in Hr; [subst self|done].
  change (m_fields (Token c aud wi)) with
    [ optional_with "iss" (str_type c) (DefaultValue (PyStr "authopie"));
      optional_with "sub" (str_type c) (DefaultValue (PyStr "subject"));
      optional_with "aud" (str_type c) (DefaultValue aud);
      required "exp" (int_type c);
      optional_with "nbf" (int_type c) (DefaultValue (PyInt 0));
      optional_with "iat" (int_type c) (DefaultValue (int_time wi));
      optional_with "jti" (uuid_type c) (DefaultFactory uuid4);
      with_default "scopes" (list_validator (str_type c)) (PyList []) ] in Hf.
  do 8 peel Hf.
  apply validate_fields_nil in Hf as [-> ->].
  same_world Hstep. same_world Hstep0. same_world Hstep1.
  same_world Hstep2. same_world Hstep3. same_world Hstep4.
  same_world Hstep6.
  by exists v, v0, v1, v2, v3, v4, v5, v6.
Qed.

(** X11.  A token keeps every keyword argument that names none of its
    fields, as it was passed. *)
Theorem Token_keeps_extra c aud wi kw w self w' k :
  construct (Token c aud wi) kw w = (Constructed self, w') →
  k ∉ token_field_names →
  self !! k = kw !! k.
Proof.
  intros H Hk.
  apply Token_inv in H as (? & ? & ? & ? & ? & ? & ? & ? & -> & _).
  assert (extra_items (Token c aud wi) kw !! k = kw !! k) as Hextra.
  { unfold extra_items. destruct (kw !! k) as [v|] eqn:E.
    - apply map_lookup_filter_Some. split; [done|]. exact Hk.
    - apply map_lookup_filter_None. by left. }
  unfold token_field_names in Hk.
  destruct (kw !! k) as [v|] eqn:E.
  - by apply lookup_union_Some_l.
  - apply lookup_union_None. split; [done|].
    repeat (rewrite lookup_insert_ne; [|intros <-; apply Hk; set_solver]).
    done.
Qed.

Lemma Token_keeps_extra_witness :
  ∃ self w',
    construct (Token sample_conversions (PyStr "api") a_world)
      token_args_with_extra a_world
      = (Constructed self, w') ∧
    self !! "tenant" = Some (PyStr "acme").
Proof.
  do 2 eexists. split; [vm_compute; reflexivity|].
  apply (Token_keeps_extra sample_conversions (PyStr "api") a_world
           token_args_with_extra a_world _ (uuid4 a_world).2 "tenant").
  - vm_compute; reflexivity.
  - apply (proj1 (bool_decide_eq_false _)). vm_compute. reflexivity.
Defined.

(** X12.  Without an [exp], absent or [None], no token is
    constructed. *)
Theorem Token_requires_exp c aud wi (kw : gmap string pyval) w self w' :
  kw !! "exp" = None ∨ kw !! "exp" = Some PyNone →
  construct (Token c aud wi) kw w ≠ (Constructed self, w').
Proof.
  intros Hexp H.
  apply Token_steps in H as (exp & ? & ? & ? & He & _).
  apply field_step_plain in He; [|done..].
  destruct Hexp as [Hexp|Hexp]; rewrite Hexp in He; [done|by destruct He].
Qed.

Lemma Token_requires_exp_witness :
  ∃ errs,
    construct (Token sample_conversions (PyStr "api") a_world)
      token_args_without_exp a_world
      = (ValidationError errs, (uuid4 a_world).2) ∧
    ∀ self w',
      construct (Token sample_conversions (PyStr "api") a_world)
        token_args_without_exp a_world
        ≠ (Constructed self, w').
Proof.
  eexists. split; [vm_compute; reflexivity|].
  intros self w'.
  apply (Token_requires_exp sample_conversions (PyStr "api") a_world
           token_args_without_exp a_world).
  left. reflexivity.
Defined.

(** X13.  What is left out when a token is constructed is filled in:
    the issuer is [authopie], the subject [subject], the audience
    [config.AUD] and the scopes the empty list. *)
Theorem Token_defaults c aud wi (kw : gmap string pyval) w self w' :
  construct (Token c aud wi) kw w = (Constructed self, w') →
  (kw !! "iss" = None → self !! "iss" = Some (PyStr "authopie")) ∧
  (kw !! "sub" = None → self !! "sub" = Some (PyStr "subject")) ∧
  (kw !! "aud" = None → self !! "aud" = Some aud) ∧
  (kw !! "scopes" = None → self !! "scopes" = Some (PyList [])).
Proof.
  intros H.
  apply Token_inv in H
    as (iss & sub & au & ? & ? & ? & ? & scopes & -> & Hi & Hs & Ha & Hsc).
  repeat split; intros Hkw;
    (rewrite add_extra_lookup_union;
     [|rewrite Token_field_names; unfold token_field_names; set_solver]).
  - rewrite Hkw in Hi.
    apply default_step with (d := PyStr "authopie") in Hi as ->; [|done..].
    by simplify_map_eq.
  - rewrite Hkw in Hs.
    apply default_step with (d := PyStr "subject") in Hs as ->; [|done..].
    by simplify_map_eq.
  - rewrite Hkw in Ha.
    apply default_step with (d := aud) in Ha as ->; [|done..].
    by simplify_map_eq.
  - rewrite Hkw in Hsc.
    apply default_step with (d := PyList []) in Hsc as ->; [|done..].
    by simplify_map_eq.
Qed.

Lemma Token_defaults_witness :
  ∃ self w',
    construct (Token sample_conversions (PyStr "api") a_world)
      exp_only_args a_world
      = (Constructed self, w') ∧
    self !! "iss" = Some (PyStr "authopie") ∧
    self !! "sub" = Some (PyStr "subject") ∧
    self !! "aud" = Some (PyStr "api") ∧
    self !! "scopes" = Some (PyList []).
Proof.
  do 2 eexists. split; [vm_compute; reflexivity|].
  destruct (Token_defaults sample_conversions (PyStr "api") a_world
              exp_only_args a_world _ (uuid4 a_world).2 eq_refl)
    as (Hi & Hs & Ha & Hsc).
  split; [apply Hi|split; [apply Hs|split; [apply Ha|apply Hsc]]];
    vm_compute; reflexivity.
Defined.

(** ** Hashing *)

Lemma pyval_nested_ind (P : pyval → Prop) :
  P PyNone → (∀ b, P (PyBool b)) → (∀ z, P (PyInt z)) → (∀ s, P (PyStr s)) →
  (∀ u, P (PyUUID u)) → (∀ t, P (PyDatetime t)) →
  (∀ l, Forall P l → P (PyList l)) →
  (∀ cls attrs, Forall (λ kv, P kv.2) attrs → P (PyModel cls attrs)) →
  ∀ v, P v.
Proof.
  intros Hn Hb Hi Hs Hu Hd Hl Hm. fix IH 1.
  intros [ |b|z|s|u|t|l|cls attrs]; [done..| |].
  - apply Hl. induction l as [|x l IHl]; constructor; [apply IH|apply IHl].
  - apply Hm. induction attrs as [|[k x] attrs IHa]; constructor;
      [apply IH|apply IHa].
Qed.

(** The only thing hashing raises is the [TypeError] of a list. *)
Lemma py_hash_raise ht ha htu v e :
  py_hash ht ha htu v = Raise e → e = TypeError "unhashable type: 'list'".
Proof.
  revert e. induction v as [ | | | | | |l _|cls attrs IH] using pyval_nested_ind;
    intros e; simpl; try done; [congruence|].
  intros H.
  match type of H with bind ?r _ = _ => destruct r as [hs|e'] eqn:E end;
    simpl in H; [done|]. simplify_eq.
  revert E. generalize e. clear e.
  induction IH as [|[k x] attrs Hx _ IHa]; intros e; simpl; [done|].
  destruct (py_hash ht ha htu x) as [h|e'] eqn:Ex; simpl;
    [|intros; simplify_eq; by apply Hx].
  match goal with |- bind ?r _ = _ → _ => destruct r as [hs|e'] eqn:E' end;
    simpl; [done|].
  intros; simplify_eq. by apply IHa.
Qed.

Lemma hash_items_list ht ha htu l vs :
  PyList l ∈ vs →
  hash_items ht ha htu vs = Raise (TypeError "unhashable type: 'list'").
Proof.
  induction vs as [|x vs IH]; [by intros ?%elem_of_nil|].
  intros [<-|Hin]%elem_of_cons; [done|].
  simpl. destruct (py_hash ht ha htu x) as [h|e] eqn:Ex; simpl.
  - by rewrite IH.
  - by rewrite (py_hash_raise _ _ _ _ _ Ex).
Qed.

Lemma hash_list_field ht ha htu (m : Model) (self : gmap string pyval) f l :
  f ∈ m_fields m →
  self !! d_name f = Some (PyList l) →
  __hash__ ht ha htu m self = Raise (TypeError "unhashable type: 'list'").
Proof.
  intros Hf Hl. unfold __hash__, dict_values.
  rewrite (hash_items_list _ _ _ l); [done|].
  apply elem_of_app. left. apply list_elem_of_omap. eauto.
Qed.

(** X14.  An object one of whose fields holds a list cannot be hashed:
    [__hash__] raises the [TypeError] of an unhashable list. *)
Theorem hash_of_list_field_raises ht ha htu (m : Model)
    (self : gmap string pyval) f l :
  f ∈ m_fields m →
  self !! d_name f = Some (PyList l) →
  __hash__ ht ha htu m self = Raise (TypeError "unhashable type: 'list'").
Proof. apply hash_list_field. Qed.

Lemma hash_of_list_field_raises_witness :
  __hash__ sample_hash_type sample_hash_atom sample_hash_tuple
    (UserIn sample_conversions) user_in_result
  = Raise (TypeError "unhashable type: 'list'").
Proof.
  apply (hash_of_list_field_raises _ _ _ (UserIn sample_conversions) user_in_result
           (optional_with "roles" (list_validator (str_type sample_conversions))
              (DefaultValue (PyList []))) []).
  - change (m_fields (UserIn sample_conversions)) with
      [ required "username" (email_type sample_conversions);
        required "password" (str_type sample_conversions);
        optional_with "roles" (list_validator (str_type sample_conversions))
          (DefaultValue (PyList [])) ].
    repeat constructor.
  - reflexivity.
Defined.

(** The scopes of a constructed token are a list. *)
Lemma Token_scopes_list c aud wi kw w self w' :
  construct (Token c aud wi) kw w = (Constructed self, w') →
  ∃ l, self !! "scopes" = Some (PyList l).
Proof.
  intros H.
  apply Token_inv in H
    as (? & ? & ? & ? & ? & ? & ? & scopes & -> & _ & _ & _ & Hsc).
  apply field_step_plain in Hsc; [|done..].
  assert (∃ l, scopes = PyList l) as [l ->].
  { destruct (kw !! "scopes") as [given|]; simpl in Hsc;
      [|destruct Hsc as [-> _]; by eexists].
    destruct given; try (by apply list_validator_Ok in Hsc).
    by destruct Hsc. }
  exists l.
  rewrite add_extra_lookup_union;
    [|rewrite Token_field_names; unfold token_field_names; set_solver].
  by simplify_map_eq.
Qed.

(** X15.  No constructed token can be hashed: its scopes are always a
    list. *)
Theorem Token_is_unhashable ht ha htu c aud wi kw w self w' :
  construct (Token c aud wi) kw w = (Constructed self, w') →
  __hash__ ht ha htu (Token c aud wi) self
    = Raise (TypeError "unhashable type: 'list'").
Proof.
  intros H. apply Token_scopes_list in H as [l Hl].
  apply (hash_list_field _ _ _ _ _
           (with_default "scopes" (list_validator (str_type c)) (PyList [])) l);
    [|done].
  change (m_fields (Token c aud wi)) with
    [ optional_with "iss" (str_type c) (DefaultValue (PyStr "authopie"));
      optional_with "sub" (str_type c) (DefaultValue (PyStr "subject"));
      optional_with "aud" (str_type c) (DefaultValue aud);
      required "exp" (int_type c);
      optional_with "nbf" (int_type c) (DefaultValue (PyInt 0));
      optional_with "iat" (int_type c) (DefaultValue (int_time wi));
      optional_with "jti" (uuid_type c) (DefaultFactory uuid4);
      with_default "scopes" (list_validator (str_type c)) (PyList []) ].
  set_solver.
Qed.

Lemma Token_is_unhashable_witness :
  ∃ self w',
    construct (Token sample_conversions (PyStr "api") a_world)
      exp_only_args a_world
      = (Constructed self, w') ∧
    __hash__ sample_hash_type sample_hash_atom sample_hash_tuple
      (Token sample_conversions (PyStr "api") a_world) self
    = Raise (TypeError "unhashable type: 'list'").
Proof.
  do 2 eexists. split; [vm_compute; reflexivity|].
  apply (Token_is_unhashable _ _ _ sample_conversions (PyStr "api") a_world
           exp_only_args a_world _ (uuid4 a_world).2).
  vm_compute; reflexivity.
Defined.

Lemma hash_items_atoms ht ha htu vs :
  Forall (λ v, is_atom v = true) vs →
  hash_items ht ha htu vs = Ok (ha <$> vs).
Proof.
  induction 1 as [|v vs Hv _ IH]; [done|].
  simpl. rewrite IH. by destruct v.
Qed.

(** What a field of type [str] without validators ends up with is a
    string, the default or [None]. *)
Lemma str_field_atom c m name allow_none d input w v w' :
  conversions_ok c →
  pre_validators m
    {| d_name := name; d_type := str_type c; d_allow_none := allow_none;
       d_default := d |} = [] →
  post_validators m
    {| d_name := name; d_type := str_type c; d_allow_none := allow_none;
       d_default := d |} = [] →
  validate_always m
    {| d_name := name; d_type := str_type c; d_allow_none := allow_none;
       d_default := d |} = false →
  match d with
  | Required => True
  | DefaultValue x => is_atom x = true
  | DefaultFactory _ => False
  end →
  field_step m
    {| d_name := name; d_type := str_type c; d_allow_none := allow_none;
       d_default := d |} input w = (Valid v, w') →
  is_atom v = true.
Proof.
  intros Hc Hpre Hpost Halways Hd H.
  apply field_step_plain in H; [|done..].
  destruct input as [x|]; simpl in H.
  - assert (v = PyNone ∨ str_validator c x = Ok v) as [->|Hx]
      by (destruct x; try (by right; apply pure_Ok in H as [? _]);
          left; by destruct H as (_ & -> & _)); [done|].
    by apply (str_out c Hc) in Hx as [s ->].
  - destruct d; [done| |done]. by destruct H as [-> _].
Qed.

(** X16.  A constructed JWK can always be hashed: all its values are
    strings or [None]. *)
Theorem JWK_is_hashable ht ha htu c kw w self w' :
  conversions_ok c →
  construct (JWK c) kw w = (Constructed self, w') →
  ∃ h, __hash__ ht ha htu (JWK c) self = Ok h.
Proof.
  intros Hc H. apply construct_inv in H as (vals & Hf & Hr).
  apply plain_model_self in Hr; [subst self|done..].
  change (m_fields (JWK c)) with
    [ required "kid" (str_type c);
      with_default "kty" (str_type c) (PyStr "RSA");
      with_default "alg" (str_type c) (PyStr "RS256");
      with_default "use" (str_type c) (PyStr "sig");
      required "n" (str_type c);
      with_default "e" (str_type c) (PyStr "AQAB");
      optional "x5c" (str_type c);
      optional "x5t" (str_type c) ] in Hf.
  do 8 peel Hf.
  apply validate_fields_nil in Hf as [-> ->].
  repeat match goal with
  | H : field_step _ _ _ _ = _ |- _ => apply (str_field_atom c) in H; [|done..]
  end.
  eexists. unfold __hash__.
  assert (dict_values (JWK c)
            (<["x5t":=v6]> (<["x5c":=v5]> (<["e":=v4]> (<["n":=v3]>
             (<["use":=v2]> (<["alg":=v1]> (<["kty":=v0]> (<["kid":=v]> ∅))))))))
          = [v; v0; v1; v2; v3; v4; v5; v6]) as -> by reflexivity.
  rewrite hash_items_atoms; [done|].
  by repeat constructor.
Qed.

Lemma JWK_is_hashable_witness :
  ∃ self h,
    construct (JWK sample_conversions) jwk_args a_world
      = (Constructed self, a_world) ∧
    __hash__ sample_hash_type sample_hash_atom sample_hash_tuple
      (JWK sample_conversions) self = Ok h.
Proof.
  eexists.
  destruct (JWK_is_hashable sample_hash_type sample_hash_atom sample_hash_tuple
              sample_conversions jwk_args a_world _ a_world
              sample_conversions_ok eq_refl) as [h Hh].
  exists h. split; [reflexivity|exact Hh].
Defined.

(** ** Key pairs *)

(** X17.  A constructed key pair has exactly five attributes; the key
    id and both keys, the private one included, are strings, and the
    expiry and the time of creation are datetimes, none of them
    [None]. *)
Theorem KeyPair_attributes c kw w self w' :
  conversions_ok c →
  construct (KeyPair c) kw w = (Constructed self, w') →
  dom self = {[ "kid"; "public_key"; "private_key"; "exp"; "added_at" ]} ∧
  (∃ s, self !! "kid" = Some (PyStr s)) ∧
  (∃ s, self !! "public_key" = Some (PyStr s)) ∧
  (∃ s, self !! "private_key" = Some (PyStr s)) ∧
  (∃ t, self !! "exp" = Some (PyDatetime t)) ∧
  (∃ t, self !! "added_at" = Some (PyDatetime t)) ∧
  w' = w.
Proof.
  intros Hc H.
  apply construct_inv in H as (vals & Hf & Hr).
  apply plain_model_self in Hr; [subst self|done..].
  change (m_fields (KeyPair c)) with
    [ required "kid" (str_type c);
      required "public_key" (str_type c);
      required "private_key" (str_type c);
      required "exp" (datetime_type c);
      optional "added_at" (datetime_type c) ] in Hf.
  do 5 peel Hf.
  apply validate_fields_nil in Hf as [-> ->].
  same_world Hstep. same_world Hstep0. same_world Hstep1.
  same_world Hstep2. same_world Hstep3.
  rewrite (added_at_step c _ _ Hc) in Hstep3.
  apply field_step_plain in Hstep; [|done..].
  apply field_step_plain in Hstep0; [|done..].
  apply field_step_plain in Hstep1; [|done..].
  apply field_step_plain in Hstep2; [|done..].
  split; [rewrite !dom_insert_L, dom_empty_L; set_solver|].
  split; [|split; [|split; [|split; [|split; [|done]]]]].
  - destruct (kw !! "kid") as [x|]; [|done].
    assert (str_validator c x = Ok v) as Hx
      by (destruct x; try (by destruct Hstep); by apply pure_Ok in Hstep as [? _]).
    apply (str_out c Hc) in Hx as [s ->]. exists s. by simplify_map_eq.
  - destruct (kw !! "public_key") as [x|]; [|done].
    assert (str_validator c x = Ok v0) as Hx
      by (destruct x; try (by destruct Hstep0); by apply pure_Ok in Hstep0 as [? _]).
    apply (str_out c Hc) in Hx as [s ->]. exists s. by simplify_map_eq.
  - destruct (kw !! "private_key") as [x|]; [|done].
    assert (str_validator c x = Ok v1) as Hx
      by (destruct x; try (by destruct Hstep1); by apply pure_Ok in Hstep1 as [? _]).
    apply (str_out c Hc) in Hx as [s ->]. exists s. by simplify_map_eq.
  - destruct (kw !! "exp") as [x|]; [|done].
    assert (datetime_validator c x = Ok v2) as Hx
      by (destruct x; try (by destruct Hstep2); by apply pure_Ok in Hstep2 as [? _]).
    apply (datetime_out c Hc) in Hx as [t ->]. exists t. by simplify_map_eq.
  - simplify_eq. eexists. by simplify_map_eq.
Qed.

Lemma KeyPair_attributes_witness :
  ∃ self,
    construct (KeyPair sample_conversions) converted_key_pair_args a_world
      = (Constructed self, a_world) ∧
    dom self = {[ "kid"; "public_key"; "private_key"; "exp"; "added_at" ]} ∧
    (∃ s, self !! "kid" = Some (PyStr s)) ∧
    (∃ s, self !! "public_key" = Some (PyStr s)) ∧
    (∃ s, self !! "private_key" = Some (PyStr s)) ∧
    (∃ t, self !! "exp" = Some (PyDatetime t)) ∧
    (∃ t, self !! "added_at" = Some (PyDatetime t)) ∧
    a_world = a_world.
Proof.
  eexists. split; [vm_compute; reflexivity|].
  apply (KeyPair_attributes sample_conversions converted_key_pair_args a_world
           _ a_world sample_conversions_ok).
  vm_compute; reflexivity.
Defined.

(** ** From [UserIn] to [UserInUpdate] *)

Lemma email_validator_Ok c x v :
  conversions_ok c →
  email_validator c x = Ok v → ∃ a, v = PyStr a.
Proof.
  intros Hc. unfold email_validator.
  destruct (str_validator c x) as [v'|e] eqn:E; simpl; [|done].
  apply (str_out c Hc) in E as [s ->].
  destruct (validate_email c s); intros H; simplify_eq. eauto.
Qed.

(** A supplied value that is not [None] is treated alike by a field
    and by its [Optional] version. *)
Lemma field_step_optional m m' name ty d d' allow x w :
  pre_validators m
    {| d_name := name; d_type := ty; d_allow_none := false; d_default := d |} = [] →
  post_validators m
    {| d_name := name; d_type := ty; d_allow_none := false; d_default := d |} = [] →
  pre_validators m'
    {| d_name := name; d_type := ty; d_allow_none := allow; d_default := d' |} = [] →
  post_validators m'
    {| d_name := name; d_type := ty; d_allow_none := allow; d_default := d' |} = [] →
  x ≠ PyNone →
  field_step m'
    {| d_name := name; d_type := ty; d_allow_none := allow; d_default := d' |}
    (Some x) w
  = field_step m
      {| d_name := name; d_type := ty; d_allow_none := false; d_default := d |}
      (Some x) w.
Proof. intros. by rewrite !field_step_given. Qed.

(** X18.  [UserInUpdate] accepts what [UserIn] accepts, with the same
    result, unless the roles are [None]. *)
Theorem UserIn_accepted_by_update c kw w self w' :
  conversions_ok c →
  construct (UserIn c) kw w = (Constructed self, w') →
  self !! "roles" ≠ Some PyNone →
  construct (UserInUpdate c) kw w = (Constructed self, w').
Proof.
  intros Hc H Hroles. apply construct_inv in H as (vals & Hf & Hr).
  apply plain_model_self in Hr; [subst self|done..].
  change (m_fields (UserIn c)) with
    [ required "username" (email_type c);
      required "password" (str_type c);
      optional_with "roles" (list_validator (str_type c))
        (DefaultValue (PyList [])) ] in Hf.
  do 3 peel Hf.
  apply validate_fields_nil in Hf as [-> ->].
  same_world Hstep. same_world Hstep0. same_world Hstep1.
  rewrite lookup_insert_eq in Hroles.
  (* the three turns of the loop are the same for the update *)
  assert (field_step (UserInUpdate c) (optional "username" (email_type c))
            (kw !! "username") w = (Valid v, w) ∧ ∃ a, v = PyStr a) as [Su [a ->]].
  { pose proof Hstep as Hp. apply field_step_plain in Hp; [|done..].
    destruct (kw !! "username") as [x|]; [|done].
    assert (x ≠ PyNone) as Hx by (intros ->; by destruct Hp).
    split.
    - rewrite <- Hstep. by apply field_step_optional.
    - assert (email_validator c x = Ok v) as Hv
        by (destruct x; try done; by apply pure_Ok in Hp as [? _]).
      by apply (email_validator_Ok c _ _ Hc) in Hv. }
  assert (field_step (UserInUpdate c) (optional "password" (str_type c))
            (kw !! "password") w = (Valid v0, w)) as Sp.
  { pose proof Hstep0 as Hp. apply field_step_plain in Hp; [|done..].
    destruct (kw !! "password") as [x|]; [|done].
    assert (x ≠ PyNone) as Hx by (intros ->; by destruct Hp).
    rewrite <- Hstep0. by apply field_step_optional. }
  assert (∃ l, v1 = PyList l) as [l ->].
  { apply field_step_plain in Hstep1; [|done..].
    destruct (kw !! "roles") as [x|]; simpl in Hstep1;
      [|destruct Hstep1 as [-> _]; by eexists].
    destruct x; try (by apply list_validator_Ok in Hstep1).
    by destruct Hstep1 as (_ & -> & _). }
  fields_of (UserInUpdate c)
    [ optional "username" (email_type c);
      optional "password" (str_type c);
      optional_with "roles" (list_validator (str_type c))
        (DefaultValue (PyList [])) ].
  rewrite Su. cbv beta iota. rewrite Sp. cbv beta iota.
  change (field_step (UserInUpdate c)
            (optional_with "roles" (list_validator (str_type c))
               (DefaultValue (PyList []))) (kw !! "roles") w)
    with (field_step (UserIn c)
            (optional_with "roles" (list_validator (str_type c))
               (DefaultValue (PyList []))) (kw !! "roles") w).
  rewrite Hstep1. cbv beta iota.
  change (m_root (UserInUpdate c)) with [(true, check_for_no_data)].
  unfold add_extra.
  change (m_extra (UserInUpdate c)) with ExtraIgnore.
  cbn [run_root_validators andb negb].
  rewrite bool_decide_eq_true_2 by done. simpl.
  rewrite (check_for_no_data_passes _ (PyStr a) v0 l).
  - reflexivity.
  - by simplify_map_eq.
  - by simplify_map_eq.
  - by simplify_map_eq.
  - by left.
Qed.

Lemma UserIn_accepted_by_update_witness :
  construct (UserIn sample_conversions) user_in_args a_world
    = (Constructed user_in_result, a_world) ∧
  construct (UserInUpdate sample_conversions) user_in_args a_world
    = (Constructed user_in_result, a_world).
Proof.
  split; [vm_compute; reflexivity|].
  apply (UserIn_accepted_by_update sample_conversions user_in_args a_world
           user_in_result a_world sample_conversions_ok).
  - vm_compute; reflexivity.
  - vm_compute. discriminate.
Defined.
